(** * CVD risk prediction: the inference server and the training pipeline

    A shallow embedding of [api_server.py] (feature extraction, selective
    scaling, the [/predict] and [/predict-batch] routes) and of
    [cvd_risk_predictor.py] ([CVDRiskPredictor.train_model], and the scaling
    step of [predict_from_excel]).

    Python floats and numpy [float64] cells are IEEE binary64 numbers, here
    Rocq's primitive [float]. Exceptions are values of [exn]; a computation
    that can raise returns [res]. JSON request bodies are values of [json];
    a Python [dict] is an association list in insertion order. *)

From Stdlib Require Import PrimFloat FloatOps SpecFloat ZArith.
From stdpp Require Import base option list strings pretty.

Local Open Scope string_scope.
Local Open Scope list_scope.

(** ** Python values, exceptions *)

#[warnings="-register-all"]
Inductive json : Type :=
| JNull
| JBool (b : bool)
| JInt (z : Z)
| JFloat (f : float)
| JStr (s : string)
| JList (l : list json)
| JDict (d : list (string * json)).

(** The exception classes that occur. [NotFittedError] is scikit-learn's; it
    derives from both [ValueError] and [AttributeError]. *)
Inductive exn : Type :=
| ValueError (msg : string)
| TypeError (msg : string)
| KeyError (msg : string)
| IndexError (msg : string)
| AttributeError (msg : string)
| OverflowError (msg : string)
| NotFittedError (msg : string)
| FileNotFoundError (msg : string).

(** [str(e)] *)
Definition str_exn (e : exn) : string :=
  match e with
  | ValueError m | TypeError m | KeyError m | IndexError m
  | AttributeError m | OverflowError m | NotFittedError m
  | FileNotFoundError m => m
  end.

(** [isinstance(e, ValueError)], what [except ValueError] catches. *)
Definition is_ValueError (e : exn) : bool :=
  match e with
  | ValueError _ | NotFittedError _ => true
  | _ => false
  end.

Inductive res (A : Type) : Type :=
| Ok (a : A)
| Raise (e : exn).
Arguments Ok {A} a.
Arguments Raise {A} e.

#[global] Instance res_ret : MRet res := fun _ a => Ok a.

#[global] Instance res_bind : MBind res := fun _ _ k c =>
  match c with
  | Ok a => k a
  | Raise e => Raise e
  end.

Definition is_ok {A} (r : res A) : bool :=
  match r with
  | Ok _ => true
  | Raise _ => false
  end.

(** An estimator object is either freshly constructed or fitted. *)
Inductive estimator (A : Type) : Type :=
| Unfitted
| Fitted (a : A).
Arguments Unfitted {A}.
Arguments Fitted {A} a.

(** ** Dictionaries *)

Fixpoint dict_get (k : string) (d : list (string * json)) : option json :=
  match d with
  | [] => None
  | (k', v) :: d' => if String.eqb k k' then Some v else dict_get k d'
  end.

(** [x in l] for a string [x] and a list of JSON values. *)
Definition json_is_str (k : string) (v : json) : bool :=
  match v with
  | JStr s => String.eqb k s
  | _ => false
  end.

Definition is_substring (k s : string) : bool :=
  match String.index 0 k s with
  | Some _ => true
  | None => false
  end.

Definition type_name (v : json) : string :=
  match v with
  | JNull => "NoneType"
  | JBool _ => "bool"
  | JInt _ => "int"
  | JFloat _ => "float"
  | JStr _ => "str"
  | JList _ => "list"
  | JDict _ => "dict"
  end.

(** [k in v] *)
Definition py_in (k : string) (v : json) : res bool :=
  match v with
  | JDict d => Ok (bool_decide (is_Some (dict_get k d)))
  | JList l => Ok (existsb (json_is_str k) l)
  | JStr s => Ok (is_substring k s)
  | _ => Raise (TypeError ("argument of type '" +:+ type_name v +:+ "' is not iterable"))
  end.

(** [v[k]] for a string key [k] *)
Definition py_getitem (v : json) (k : string) : res json :=
  match v with
  | JDict d =>
      match dict_get k d with
      | Some x => Ok x
      | None => Raise (KeyError ("'" +:+ k +:+ "'"))
      end
  | JList _ => Raise (TypeError "list indices must be integers or slices, not str")
  | JStr _ => Raise (TypeError "string indices must be integers, not 'str'")
  | _ => Raise (TypeError ("'" +:+ type_name v +:+ "' object is not subscriptable"))
  end.

(** Truth value of a JSON value ([not v] is its negation). *)
Definition py_truthy (v : json) : bool :=
  match v with
  | JNull => false
  | JBool b => b
  | JInt z => negb (Z.eqb z 0)
  | JFloat f => negb (PrimFloat.eqb f 0)
  | JStr s => negb (String.eqb s "")
  | JList l => match l with [] => false | _ => true end
  | JDict d => match d with [] => false | _ => true end
  end.

(** ** The schema *)

Definition feature_names : list string :=
  [ "age"; "anaemia"; "creatinine_phosphokinase"; "diabetes";
    "ejection_fraction"; "high_blood_pressure"; "platelets";
    "serum_creatinine"; "serum_sodium"; "sex"; "smoking"; "time" ].

Definition continuous_vars : list string :=
  [ "age"; "creatinine_phosphokinase"; "ejection_fraction";
    "platelets"; "serum_creatinine"; "serum_sodium"; "time" ].

(** [l.index(x)] *)
Fixpoint list_index (x : string) (l : list string) : res nat :=
  match l with
  | [] => Raise (ValueError ("'" +:+ x +:+ "' is not in list"))
  | y :: l' => if String.eqb x y then Ok 0 else i ← list_index x l'; Ok (S i)
  end.

Fixpoint res_mapM {A B} (f : A -> res B) (l : list A) : res (list B) :=
  match l with
  | [] => Ok []
  | a :: l' => b ← f a; bs ← res_mapM f l'; Ok (b :: bs)
  end.

Definition matrix : Type := list (list float).

(** ** scikit-learn's StandardScaler, as far as the programs use it

    A fitted scaler holds [mean_] and [scale_]. [transform] checks its
    input (the width must be the fitted one; a cell may be NaN but not
    infinite) and computes [(x - mean_) / scale_] column by column. *)

Record StandardScaler : Type := {
  mean_ : list float;
  scale_ : list float
}.

Definition standardize (x mu s : float) : float := ((x - mu) / s)%float.

Fixpoint zip3_with (xs mus ss : list float) : list float :=
  match xs, mus, ss with
  | x :: xs', mu :: mus', s :: ss' => standardize x mu s :: zip3_with xs' mus' ss'
  | _, _, _ => []
  end.

Definition scaler_transform_row (sc : StandardScaler) (row : list float) : res (list float) :=
  if negb (bool_decide (length row = length (mean_ sc) /\ length row = length (scale_ sc)))
  then Raise (ValueError ("X has " +:+ pretty (length row)
                          +:+ " features, but StandardScaler is expecting "
                          +:+ pretty (length (mean_ sc)) +:+ " features as input."))
  else if existsb PrimFloat.is_infinity row
  then Raise (ValueError "Input X contains infinity or a value too large for dtype('float64').")
  else Ok (zip3_with row (mean_ sc) (scale_ sc)).

Definition not_fitted_msg (cls : string) : string :=
  "This " +:+ cls +:+ " instance is not fitted yet. Call 'fit' with appropriate arguments before using this estimator.".

(** [scaler.transform(X)[0]] for a one-row [X] *)
Definition transform (sc : estimator StandardScaler) (row : list float) : res (list float) :=
  match sc with
  | Unfitted => Raise (NotFittedError (not_fitted_msg "StandardScaler"))
  | Fitted s => scaler_transform_row s row
  end.

(** [scaler.transform(X)] for a matrix [X] with [n] columns: as row by row,
    after the check that there is a row at all. *)
Definition transform_matrix (sc : estimator StandardScaler) (n : nat) (X : matrix)
    : res matrix :=
  match sc with
  | Unfitted => Raise (NotFittedError (not_fitted_msg "StandardScaler"))
  | Fitted s =>
      match X with
      | [] => Raise (ValueError ("Found array with 0 sample(s) (shape=(0, " +:+ pretty n
                                 +:+ ")) while a minimum of 1 is required by StandardScaler."))
      | _ => res_mapM (scaler_transform_row s) X
      end
  end.

(** ** The classifier: an opaque fitted model

    The programs only call [predict] and [predict_proba]; both are library
    code and may raise. [predict] gives the label of one row (a cell of the
    label column the model was fitted on), [predict_proba] the row of class
    probabilities. *)

Record Classifier : Type := {
  clf_predict : list float -> res float;
  clf_predict_proba : list float -> res (list float)
}.

Definition model_predict (m : estimator Classifier) (x : list float) : res float :=
  match m with
  | Unfitted => Raise (NotFittedError (not_fitted_msg "RandomForestClassifier"))
  | Fitted c => clf_predict c x
  end.

Definition model_predict_proba (m : estimator Classifier) (x : list float) : res (list float) :=
  match m with
  | Unfitted => Raise (NotFittedError (not_fitted_msg "RandomForestClassifier"))
  | Fitted c => clf_predict_proba c x
  end.

(** ** Module-level state of the server *)

Record globals : Type := {
  model : option (estimator Classifier);
  scaler : option (estimator StandardScaler)
}.

Definition initial_globals : globals := {| model := None; scaler := None |}.

Definition none_attr (a : string) : exn :=
  AttributeError ("'NoneType' object has no attribute '" +:+ a +:+ "'").

(** Attribute access on a global that may still be [None]. *)
Definition attr {A} (o : option A) (a : string) : res A :=
  match o with
  | Some x => Ok x
  | None => Raise (none_attr a)
  end.

(** ** Cells of a row by position *)

(** The cells of [row] at the positions [idx]. *)
Definition take_cells (idx : list nat) (row : list float) : list float :=
  omap (fun i => row !! i) idx.

(** [row] with [values] written at the positions [idx]. *)
Fixpoint put_cells (idx : list nat) (values : list float) (row : list float) : list float :=
  match idx, values with
  | i :: idx', v :: values' => put_cells idx' values' (<[i := v]> row)
  | _, _ => row
  end.

(** ** Built-in conversions

    [float(n)] for an [int] rounds to the nearest binary64 number, ties to
    even, and raises [OverflowError] when that is infinite. *)
Definition float_of_int (z : Z) : option float :=
  let f := SF2Prim (binary_normalize 53 1024 z 0 false) in
  if PrimFloat.is_infinity f then None else Some f.

(** Nearest integer to [q / d] for [d > 0], ties to even. *)
Definition round_half_even (q d : Z) : Z :=
  let t := (q / d)%Z in
  let r := (q mod d)%Z in
  match (2 * r ?= d)%Z with
  | Lt => t
  | Gt => (t + 1)%Z
  | Eq => if Z.even t then t else (t + 1)%Z
  end.

(** The format [f"{x:.1f}"]: the exact value of [x] rounded to one decimal. *)
Definition format_1f (x : float) : string :=
  match Prim2SF x with
  | S754_nan => "nan"
  | S754_infinity s => if s then "-inf" else "inf"
  | S754_zero s => if s then "-0.0" else "0.0"
  | S754_finite s m e =>
      let tenths :=
        match e with
        | Z.neg p => round_half_even (10 * Z.pos m) (2 ^ Z.pos p)
        | _ => (10 * Z.pos m * 2 ^ e)%Z
        end in
      (if s then "-" else "") +:+ pretty (tenths / 10)%Z +:+ "." +:+ pretty (tenths mod 10)%Z
  end.

(** ** The server ([api_server.py]) *)

Inductive request : Type :=
| GET_health
| POST_predict (data : json)
| POST_predict_batch (data : json).

Section Server.

(** Built-ins of the Python runtime that are taken as given: [float(s)]
    for a [str] ([None] when the text is not a number) and [repr(s)]. *)
Variable float_of_str : string -> option float.
Variable repr : string -> string.

(** [float(v)] *)
Definition py_float (v : json) : res float :=
  match v with
  | JFloat f => Ok f
  | JBool b => Ok (if b then 1%float else 0%float)
  | JInt z =>
      match float_of_int z with
      | Some f => Ok f
      | None => Raise (OverflowError "int too large to convert to float")
      end
  | JStr s =>
      match float_of_str s with
      | Some f => Ok f
      | None => Raise (ValueError ("could not convert string to float: " +:+ repr s))
      end
  | _ => Raise (TypeError ("float() argument must be a string or a real number, not '"
                           +:+ type_name v +:+ "'"))
  end.

(** The loop of [preprocess_patient_data] that builds [features], over the
    names still to be visited. *)
Fixpoint extract_features (names : list string) (patient_data : json) : res (list float) :=
  match names with
  | [] => Ok []
  | feature :: names' =>
      present ← py_in feature patient_data;
      if negb present
      then Raise (ValueError ("Missing required field: " +:+ feature))
      else
        v ← py_getitem patient_data feature;
        x ← py_float v;
        rest ← extract_features names' patient_data;
        Ok (x :: rest)
  end.

(** [features_array[:, continuous_indices]] on the single row *)
Definition take_columns (idx : list nat) (row : list float) : res (list float) :=
  res_mapM (fun i =>
    match row !! i with
    | Some x => Ok x
    | None => Raise (IndexError "index is out of bounds for axis 1")
    end) idx.

Definition preprocess_patient_data (g : globals) (patient_data : json) : res (list float) :=
  features ← extract_features feature_names patient_data;
  let features_array := features in
  let scaled_features := features_array in
  continuous_indices ← res_mapM (fun var => list_index var feature_names) continuous_vars;
  sc ← attr (scaler g) "transform";
  cols ← take_columns continuous_indices features_array;
  scaled ← transform sc cols;
  Ok (put_cells continuous_indices scaled scaled_features).

(** Responses: the JSON body and the HTTP status. *)
Record response : Type := {
  body : json;
  status : Z
}.

(** ["YES" if prediction == 1 else "NO"] *)
Definition cvd_risk_of (prediction : float) : string :=
  if PrimFloat.eqb prediction 1 then "YES" else "NO".

(** ["HIGH RISK" if prediction == 1 else "LOW RISK"] *)
Definition risk_level_of (prediction : float) : string :=
  if PrimFloat.eqb prediction 1 then "HIGH RISK" else "LOW RISK".

Definition risk_percentage_of (probability : float) : string :=
  format_1f (probability * 100)%float +:+ "%".

(** [model.predict_proba(features)[0, 1]] *)
Definition positive_proba (m : estimator Classifier) (features : list float) : res float :=
  row ← model_predict_proba m features;
  match row !! 1 with
  | Some p => Ok p
  | None => Raise (IndexError "index 1 is out of bounds for axis 1 with size 1")
  end.

(** Preprocessing and the two model calls, shared by both routes: the
    prediction and the probability of one record. *)
Definition classify (g : globals) (patient_data : json) : res (float * float) :=
  features ← preprocess_patient_data g patient_data;
  m ← attr (model g) "predict";
  prediction ← model_predict m features;
  probability ← positive_proba m features;
  Ok (prediction, probability).

Definition result_fields (prediction : float) (probability : float) : list (string * json) :=
  [ ("cvd_risk", JStr (cvd_risk_of prediction));
    ("risk_probability", JFloat probability);
    ("risk_percentage", JStr (risk_percentage_of probability));
    ("risk_level", JStr (risk_level_of prediction));
    ("success", JBool true) ].

Definition error_400 (msg : string) : response :=
  {| body := JDict [("error", JStr msg); ("success", JBool false)]; status := 400 |}.

Definition error_500 (msg : string) : response :=
  {| body := JDict [("error", JStr msg); ("success", JBool false)]; status := 500 |}.

(** The [/predict] route, applied to [request.json]. *)
Definition predict (g : globals) (patient_data : json) : response :=
  if negb (py_truthy patient_data)
  then {| body := JDict [("error", JStr "No data provided")]; status := 400 |}
  else
    match classify g patient_data with
    | Ok (prediction, probability) =>
        {| body := JDict (result_fields prediction probability); status := 200 |}
    | Raise e =>
        if is_ValueError e
        then error_400 (str_exn e)
        else error_500 ("Prediction failed: " +:+ str_exn e)
    end.

(** One iteration of the loop of [predict_batch]: the entry appended to
    [results] for the record at position [i]. *)
Definition batch_entry (g : globals) (i : nat) (patient_data : json) : json :=
  match classify g patient_data with
  | Ok (prediction, probability) =>
      JDict (("patient_index", JInt (Z.of_nat i)) :: result_fields prediction probability)
  | Raise e =>
      JDict [("patient_index", JInt (Z.of_nat i)); ("error", JStr (str_exn e));
             ("success", JBool false)]
  end.

(** [r.get('success', False)] *)
Definition entry_success (r : json) : bool :=
  match r with
  | JDict d =>
      match dict_get "success" d with
      | Some v => py_truthy v
      | None => false
      end
  | _ => false
  end.

(** The one-character strings of a string. *)
Fixpoint chars (s : string) : list json :=
  match s with
  | EmptyString => []
  | String c s' => JStr (String c EmptyString) :: chars s'
  end.

(** What [enumerate(patients)] iterates over. *)
Definition py_iter (v : json) : res (list json) :=
  match v with
  | JList l => Ok l
  | JDict d => Ok (map (fun kv => JStr (fst kv)) d)
  | JStr s => Ok (chars s)
  | _ => Raise (TypeError ("'" +:+ type_name v +:+ "' object is not iterable"))
  end.

Definition batch_results (g : globals) (patients : list json) : list json :=
  imap (batch_entry g) patients.

(** The [/predict-batch] route, applied to [request.json]. *)
Definition predict_batch (g : globals) (data : json) : response :=
  let no_data := {| body := JDict [("error", JStr "No patient data provided")]; status := 400 |} in
  let attempt : res response :=
    if negb (py_truthy data) then Ok no_data
    else
      has ← py_in "patients" data;
      if negb has then Ok no_data
      else
        patients ← py_getitem data "patients";
        items ← py_iter patients;
        let results := batch_results g items in
        Ok {| body := JDict
                [ ("results", JList results);
                  ("total", JInt (Z.of_nat (length items)));
                  ("successful", JInt (Z.of_nat (length (filter (fun r => entry_success r = true) results)))) ];
              status := 200 |}
  in
  match attempt with
  | Ok r => r
  | Raise e => error_500 ("Batch prediction failed: " +:+ str_exn e)
  end.

(** The [/health] route. *)
Definition health_check (g : globals) : response :=
  {| body := JDict [ ("status", JStr "healthy");
                     ("model_loaded", JBool (bool_decide (is_Some (model g)))) ];
     status := 200 |}.

(** The routes as the transitions of the running server. Only
    [load_model] declares the module variables [global]; no route assigns
    them. *)
Definition handle (g : globals) (rq : request) : response * globals :=
  match rq with
  | GET_health => (health_check g, g)
  | POST_predict data => (predict g data, g)
  | POST_predict_batch data => (predict_batch g data, g)
  end.

Fixpoint serve (g : globals) (rqs : list request) : list response * globals :=
  match rqs with
  | [] => ([], g)
  | rq :: rqs' =>
      let '(r, g') := handle g rq in
      let '(rs, g'') := serve g' rqs' in
      (r :: rs, g'')
  end.

End Server.

(** ** Training ([cvd_risk_predictor.py]) *)

(** A pandas frame of numeric cells: the column names and the rows. *)
Record DataFrame : Type := {
  columns : list string;
  rows : matrix
}.

(** Position of a column label. *)
Fixpoint column_index (name : string) (cols : list string) : res nat :=
  match cols with
  | [] => Raise (KeyError ("'" +:+ name +:+ "'"))
  | c :: cols' => if String.eqb name c then Ok 0 else i ← column_index name cols'; Ok (S i)
  end.

(** [df[names]] *)
Definition select_columns (df : DataFrame) (names : list string) : res matrix :=
  idx ← res_mapM (fun n => column_index n (columns df)) names;
  Ok (map (take_cells idx) (rows df)).

(** [df[names] = values], for names that are columns of [df] *)
Definition assign_columns (df : DataFrame) (names : list string) (values : matrix) : res DataFrame :=
  idx ← res_mapM (fun n => column_index n (columns df)) names;
  Ok {| columns := columns df;
        rows := zip_with (fun row vals => put_cells idx vals row) (rows df) values |}.

(** [df.iloc[:, :-1].values] *)
Definition iloc_all_but_last (df : DataFrame) : matrix :=
  map (fun row => take (length row - 1) row) (rows df).

(** [df.iloc[:, -1].values] *)
Definition iloc_last (df : DataFrame) : res (list float) :=
  res_mapM (fun row =>
    match last row with
    | Some y => Ok y
    | None => Raise (IndexError "single positional indexer is out-of-bounds")
    end) (rows df).

Inductive metric : Type := accuracy_score | precision_score | recall_score | f1_score.

(** The calls into pandas, scikit-learn and imbalanced-learn made by
    training, each with the arguments the program passes and the type of
    what it gets back. *)
Inductive libcall : Type -> Type :=
| read_csv (path : string) : libcall DataFrame
| drop_duplicates (df : DataFrame) : libcall DataFrame
| fit_transform (X : matrix) : libcall (StandardScaler * matrix)
| SMOTE_fit_resample (random_state : Z) (X : matrix) (y : list float)
    : libcall (matrix * list float)
| train_test_split (X : matrix) (y : list float) (test_size : float) (random_state : Z)
    : libcall (matrix * matrix * list float * list float)
| RandomForestClassifier_fit (n_estimators : Z) (random_state : Z) (X : matrix) (y : list float)
    : libcall Classifier
| score (m : metric) (y_true y_pred : list float) : libcall float.

Inductive event : Type :=
| Called {X : Type} (c : libcall X).

(** The attributes of a [CVDRiskPredictor] that training writes. *)
Record CVDRiskPredictor : Type := {
  self_model : option (estimator Classifier);
  self_scaler : option (estimator StandardScaler)
}.

Definition new_predictor : CVDRiskPredictor :=
  {| self_model := None; self_scaler := None |}.

(** What a method run has changed so far: the object and the library calls
    made, oldest first. *)
Record tstate : Type := {
  self : CVDRiskPredictor;
  trace : list event
}.

Definition M (A : Type) : Type := tstate -> res A * tstate.

#[global] Instance M_ret : MRet M := fun _ a st => (Ok a, st).

#[global] Instance M_bind : MBind M := fun _ _ k c st =>
  match c st with
  | (Ok a, st') => k a st'
  | (Raise e, st') => (Raise e, st')
  end.

Definition lift {A} (r : res A) : M A := fun st => (r, st).

Definition set_scaler (s : estimator StandardScaler) : M unit := fun st =>
  (Ok tt, {| self := {| self_model := self_model (self st); self_scaler := Some s |};
             trace := trace st |}).

Definition set_model (m : estimator Classifier) : M unit := fun st =>
  (Ok tt, {| self := {| self_model := Some m; self_scaler := self_scaler (self st) |};
             trace := trace st |}).

(** 0.30 as a binary64 number *)
Definition test_size_030 : float := 0x1.3333333333333p-2%float.

Section Training.

(** The libraries: what each call answers, or the exception it raises. *)
Variable lib : forall X : Type, libcall X -> res X.

Definition call {X} (c : libcall X) : M X := fun st =>
  (lib X c, {| self := self st; trace := trace st ++ [Called c] |}).

Definition train_model (training_data_path : string) : M unit :=
  df ← call (read_csv training_data_path);
  df ← call (drop_duplicates df);
  _ ← set_scaler Unfitted;
  cont ← lift (select_columns df continuous_vars);
  fitted ← call (fit_transform cont);
  _ ← set_scaler (Fitted fitted.1);
  df ← lift (assign_columns df continuous_vars fitted.2);
  let X := iloc_all_but_last df in
  y ← lift (iloc_last df);
  resampled ← call (SMOTE_fit_resample 42 X y);
  let X := resampled.1 in
  let y := resampled.2 in
  parts ← call (train_test_split X y test_size_030 42);
  let '(X_train, X_test, y_train, y_test) := parts in
  _ ← set_model Unfitted;
  clf ← call (RandomForestClassifier_fit 100 42 X_train y_train);
  _ ← set_model (Fitted clf);
  y_pred ← lift (res_mapM (clf_predict clf) X_test);
  _ ← call (score accuracy_score y_test y_pred);
  _ ← call (score precision_score y_test y_pred);
  _ ← call (score recall_score y_test y_pred);
  _ ← call (score f1_score y_test y_pred);
  mret tt.

Definition run_train_model (path : string) : res unit * tstate :=
  train_model path {| self := new_predictor; trace := [] |}.

End Training.

(** [predict_from_excel], from the frame read from the file up to the array
    that is handed to the model: the check for missing columns, the
    reordering to the schema, and the scaling of the continuous columns. *)
Definition has_column (df : DataFrame) (col : string) : bool :=
  existsb (String.eqb col) (columns df).

Definition py_list_repr (items : list string) : string :=
  "[" +:+ String.concat ", " (map (fun s => "'" +:+ s +:+ "'") items) +:+ "]".

Definition excel_features (this : CVDRiskPredictor) (df : DataFrame) : res matrix :=
  let missing_cols := filter (fun col => has_column df col = false) feature_names in
  if negb (bool_decide (missing_cols = []))
  then Raise (ValueError ("Missing required columns: " +:+ py_list_repr missing_cols))
  else
    cells ← select_columns df feature_names;
    let df_features := {| columns := feature_names; rows := cells |} in
    sc ← attr (self_scaler this) "transform";
    cont ← select_columns df_features continuous_vars;
    scaled ← transform_matrix sc (length continuous_vars) cont;
    df_features ← assign_columns df_features continuous_vars scaled;
    Ok (rows df_features).

(** ** Vocabulary of the statements *)

(** The five schema names that are not in [continuous_vars]. *)
Definition binary_vars : list string :=
  [ "anaemia"; "diabetes"; "high_blood_pressure"; "sex"; "smoking" ].

Definition continuous_indices : list nat := [0; 2; 4; 6; 7; 8; 11].

(** All schema fields of the dictionary [d] are present and [float] accepts
    them, with values [xs] in schema order. *)
Definition record_values (float_of_str : string -> option float) (repr : string -> string)
    (d : list (string * json)) (xs : list float) : Prop :=
  Forall2 (fun f x => exists v, dict_get f d = Some v /\ py_float float_of_str repr v = Ok x)
          feature_names xs.

(** What one pass of the extraction loop does with the field [f] of a
    dictionary. *)
Definition field (float_of_str : string -> option float) (repr : string -> string)
    (d : list (string * json)) (f : string) : res float :=
  match dict_get f d with
  | None => Raise (ValueError ("Missing required field: " +:+ f))
  | Some v => py_float float_of_str repr v
  end.

(** What both programs make of a row of twelve values: the continuous
    cells standardized with the scaler's statistics, written back over the
    row. *)
Definition scale_row (sc : StandardScaler) (row : list float) : list float :=
  put_cells continuous_indices
    (zip3_with (take_cells continuous_indices row) (mean_ sc) (scale_ sc)) row.

(** No cell is infinite. *)
Definition finite_cells (row : list float) : Prop :=
  Forall (fun x => PrimFloat.is_infinity x = false) row.

Definition in_unit_interval (p : float) : Prop :=
  PrimFloat.leb 0 p = true /\ PrimFloat.leb p 1 = true.

(** The classifier's probability estimates are probabilities. *)
Definition probabilities_valid (g : globals) : Prop :=
  forall c x row p,
    model g = Some (Fitted c) -> clf_predict_proba c x = Ok row -> In p row ->
    in_unit_interval p.

(** The record of the docstring of [predict]. *)
Definition example_patient : list (string * json) :=
  [ ("age", JInt 65); ("anaemia", JInt 0); ("creatinine_phosphokinase", JInt 582);
    ("diabetes", JInt 0); ("ejection_fraction", JInt 20); ("high_blood_pressure", JInt 0);
    ("platelets", JInt 265000); ("serum_creatinine", JFloat 0x1.e666666666666p+0);
    ("serum_sodium", JInt 130); ("sex", JInt 1); ("smoking", JInt 0); ("time", JInt 4) ].

(** Its twelve values as numbers, in schema order. *)
Definition example_values : list float :=
  [65; 0; 582; 0; 20; 0; 265000; 0x1.e666666666666p+0; 130; 1; 0; 4]%float.

(** The same record with a key outside the schema. *)
Definition example_patient_with_note : list (string * json) :=
  ("note", JStr "seen on ward 3") :: example_patient.

(** The same record without [serum_sodium]. *)
Definition patient_without_sodium : list (string * json) :=
  filter (fun kv => kv.1 <> "serum_sodium") example_patient.

(** [repr] on strings of plain letters, digits and blanks. *)
Definition repr_plain (s : string) : string := "'" +:+ s +:+ "'".

(** [float] on the texts used below: none of them is a number. *)
Definition float_of_str_none (s : string) : option float := None.

(** A scaler and a classifier for the examples: round statistics of the
    seven continuous columns, and a one-split tree on the standardized
    ejection fraction. *)
Definition example_scaler : StandardScaler :=
  {| mean_ := [60.75; 582; 38; 263360; 1.375; 136.5; 130.25]%float;
     scale_ := [12; 968; 12; 97640; 1; 4.5; 77.5]%float |}.

Definition stump : Classifier :=
  {| clf_predict := fun x =>
       match x !! 4 with
       | Some ef => Ok (if PrimFloat.ltb ef 0 then 1%float else 0%float)
       | None => Raise (ValueError "X has a different number of features than expected.")
       end;
     clf_predict_proba := fun x =>
       match x !! 4 with
       | Some ef => Ok (if PrimFloat.ltb ef 0 then [0.25; 0.75]%float else [0.75; 0.25]%float)
       | None => Raise (ValueError "X has a different number of features than expected.")
       end |}.

Definition example_globals : globals :=
  {| model := Some (Fitted stump); scaler := Some (Fitted example_scaler) |}.

(** What the [except Exception] arm of [predict] answers. *)
Definition generic_failure (r : response) : Prop :=
  exists msg, r = error_500 ("Prediction failed: " +:+ msg).

(** A failure of a kind of its own: not a success and not the generic
    failure. *)
Definition distinct_failure (r : response) : Prop :=
  status r <> 200%Z /\ ~ generic_failure r.

(** ** A model of the libraries, for the examples

    The statistics of scikit-learn's [StandardScaler] (population variance;
    a column without variance keeps the scale 1 and is left as it is), the
    sizes of [train_test_split], and the rest as far as the examples need
    it. What the libraries draw at random is a parameter. *)

Definition float_of_nat (n : nat) : float :=
  SF2Prim (binary_normalize 53 1024 (Z.of_nat n) 0 false).

Definition fsum (l : list float) : float := foldl PrimFloat.add 0%float l.

Definition fmean (l : list float) : float := (fsum l / float_of_nat (length l))%float.

Definition fvar (l : list float) : float :=
  let mu := fmean l in
  fmean (map (fun x => ((x - mu) * (x - mu))%float) l).

(** The scale of a column: its standard deviation, or 1 when that is 0. *)
Definition fscale (l : list float) : float :=
  let s := PrimFloat.sqrt (fvar l) in
  if PrimFloat.eqb s 0 then 1%float else s.

Definition column (j : nat) (X : matrix) : list float :=
  omap (fun row => row !! j) X.

Definition width (X : matrix) : nat :=
  match X with
  | [] => 0
  | row :: _ => length row
  end.

Definition StandardScaler_fit (X : matrix) : StandardScaler :=
  {| mean_ := map (fun j => fmean (column j X)) (seq 0 (width X));
     scale_ := map (fun j => fscale (column j X)) (seq 0 (width X)) |}.

Definition StandardScaler_fit_transform (X : matrix) : res (StandardScaler * matrix) :=
  match X with
  | [] => Raise (ValueError "Found array with 0 sample(s) while a minimum of 1 is required by StandardScaler.")
  | _ =>
      let sc := StandardScaler_fit X in
      scaled ← res_mapM (scaler_transform_row sc) X;
      Ok (sc, scaled)
  end.

(** Equality of cells as [drop_duplicates] sees it. *)
Definition same_cell (x y : float) : bool :=
  PrimFloat.eqb x y || (PrimFloat.is_nan x && PrimFloat.is_nan y).

Fixpoint same_row (r1 r2 : list float) : bool :=
  match r1, r2 with
  | [], [] => true
  | x :: r1', y :: r2' => same_cell x y && same_row r1' r2'
  | _, _ => false
  end.

(** Keeps the first of equal rows. *)
Fixpoint dedup (seen rest : matrix) : matrix :=
  match rest with
  | [] => []
  | row :: rest' =>
      if existsb (same_row row) seen then dedup seen rest'
      else row :: dedup (row :: seen) rest'
  end.

Definition count_label (c : float) (y : list float) : nat :=
  length (filter (fun l => PrimFloat.eqb l c = true) y).

Definition balanced (y : list float) : Prop :=
  count_label 0 y = count_label 1 y.

(** The least integer not below a finite float. *)
Definition float_ceil (f : float) : Z :=
  match Prim2SF f with
  | S754_finite s m e =>
      match e with
      | Z.neg p =>
          if s then (- (Z.pos m / 2 ^ Z.pos p))%Z
          else ((Z.pos m + 2 ^ Z.pos p - 1) / 2 ^ Z.pos p)%Z
      | _ => ((if s then -1 else 1) * Z.pos m * 2 ^ e)%Z
      end
  | _ => 0%Z
  end.

Definition select_rows {A} (idx : list nat) (l : list A) : list A :=
  omap (fun i => l !! i) idx.

(** What is drawn at random: the shuffle of [n] positions for a seed, and
    the synthetic samples SMOTE adds for a seed and a data set. *)
Record randomness : Type := {
  permutation : Z -> nat -> list nat;
  synthetic : Z -> matrix -> list float -> matrix * list float
}.

Definition SMOTE_model (rnd : randomness) (seed : Z) (X : matrix) (y : list float)
    : res (matrix * list float) :=
  if bool_decide (balanced y) then Ok (X, y)
  else let '(Xs, ys) := synthetic rnd seed X y in Ok (X ++ Xs, y ++ ys).

Definition train_test_split_model (rnd : randomness) (X : matrix) (y : list float)
    (test_size : float) (seed : Z) : res (matrix * matrix * list float * list float) :=
  let n := length X in
  if negb (Nat.eqb (length y) n)
  then Raise (ValueError "Found input variables with inconsistent numbers of samples")
  else
    let n_test := Z.to_nat (float_ceil (test_size * float_of_nat n)%float) in
    let n_train := n - n_test in
    if Nat.eqb n_train 0
    then Raise (ValueError "the resulting train set will be empty. Adjust any of the aforementioned parameters.")
    else
      let perm := permutation rnd seed n in
      let ind_test := take n_test perm in
      let ind_train := take n_train (drop n_test perm) in
      Ok (select_rows ind_train X, select_rows ind_test X,
          select_rows ind_train y, select_rows ind_test y).

Fixpoint count_pairs (want_true want_pred : bool) (y_true y_pred : list float) : nat :=
  match y_true, y_pred with
  | t :: y_true', p :: y_pred' =>
      (if Bool.eqb (PrimFloat.eqb t 1) want_true && Bool.eqb (PrimFloat.eqb p 1) want_pred
       then 1 else 0) + count_pairs want_true want_pred y_true' y_pred'
  | _, _ => 0
  end.

Definition ratio (a b : nat) : float :=
  if Nat.eqb b 0 then 0%float else (float_of_nat a / float_of_nat b)%float.

Definition score_model (m : metric) (y_true y_pred : list float) : float :=
  let tp := count_pairs true true y_true y_pred in
  let tn := count_pairs false false y_true y_pred in
  let fp := count_pairs false true y_true y_pred in
  let fn := count_pairs true false y_true y_pred in
  match m with
  | accuracy_score => ratio (tp + tn) (tp + tn + fp + fn)
  | precision_score => ratio tp (tp + fp)
  | recall_score => ratio tp (tp + fn)
  | f1_score => ratio (2 * tp) (2 * tp + fp + fn)
  end.

(** The libraries over a file system [fs], with the random draws [rnd] and
    the forest learner [forest]. *)
Definition sklearn (fs : string -> option DataFrame) (rnd : randomness)
    (forest : Z -> Z -> matrix -> list float -> res Classifier)
    (T : Type) (c : libcall T) : res T :=
  match c in libcall T return res T with
  | read_csv path =>
      match fs path with
      | Some df => Ok df
      | None => Raise (FileNotFoundError ("[Errno 2] No such file or directory: " +:+ repr_plain path))
      end
  | drop_duplicates df => Ok {| columns := columns df; rows := dedup [] (rows df) |}
  | fit_transform X => StandardScaler_fit_transform X
  | SMOTE_fit_resample seed X y => SMOTE_model rnd seed X y
  | train_test_split X y test_size seed => train_test_split_model rnd X y test_size seed
  | RandomForestClassifier_fit n seed X y => forest n seed X y
  | score m y_true y_pred => Ok (score_model m y_true y_pred)
  end.

(** The calls of a run, by what was called. *)
Definition fit_inputs (tr : list event) : list matrix :=
  omap (fun e =>
    match e with
    | Called c => match c with fit_transform X => Some X | _ => None end
    end) tr.

Definition split_inputs (tr : list event) : list (matrix * list float) :=
  omap (fun e =>
    match e with
    | Called c => match c with train_test_split X y _ _ => Some (X, y) | _ => None end
    end) tr.

Definition call_name (e : event) : string :=
  match e with
  | Called c =>
      match c with
      | read_csv _ => "read_csv"
      | drop_duplicates _ => "drop_duplicates"
      | fit_transform _ => "StandardScaler.fit_transform"
      | SMOTE_fit_resample _ _ _ => "SMOTE.fit_resample"
      | train_test_split _ _ _ _ => "train_test_split"
      | RandomForestClassifier_fit _ _ _ _ => "RandomForestClassifier.fit"
      | score accuracy_score _ _ => "accuracy_score"
      | score precision_score _ _ => "precision_score"
      | score recall_score _ _ => "recall_score"
      | score f1_score _ _ => "f1_score"
      end
  end.

(** The order in which [train_model] calls the libraries. *)
Definition call_order : list string :=
  [ "read_csv"; "drop_duplicates"; "StandardScaler.fit_transform"; "SMOTE.fit_resample";
    "train_test_split"; "RandomForestClassifier.fit";
    "accuracy_score"; "precision_score"; "recall_score"; "f1_score" ].

(** ** Example data

    Four patients in the layout of the training file, two of each class. *)
Definition csv_columns : list string := feature_names ++ ["DEATH_EVENT"].

Definition heart_failure_csv : DataFrame :=
  {| columns := csv_columns;
     rows := [ [75; 0; 582; 0; 20; 1; 265000; 1.5; 130; 1; 0; 4; 1];
               [65; 0; 146; 0; 20; 0; 162000; 1.25; 129; 1; 1; 7; 1];
               [49; 1; 80; 0; 30; 1; 427000; 1; 138; 0; 0; 12; 0];
               [45; 0; 582; 0; 80; 0; 263000; 1.25; 137; 0; 0; 63; 0] ]%float |}.

(** The same patients, all with a serum sodium of 137. *)
Definition constant_sodium_csv : DataFrame :=
  {| columns := csv_columns;
     rows := [ [75; 0; 582; 0; 20; 1; 265000; 1.5; 137; 1; 0; 4; 1];
               [65; 0; 146; 0; 20; 0; 162000; 1.25; 137; 1; 1; 7; 1];
               [49; 1; 80; 0; 30; 1; 427000; 1; 137; 0; 0; 12; 0];
               [45; 0; 582; 0; 80; 0; 263000; 1.25; 137; 0; 0; 63; 0] ]%float |}.

(** scikit-learn's statistics of their seven continuous columns. *)
Definition constant_sodium_scaler : StandardScaler :=
  StandardScaler_fit (map (take_cells continuous_indices) (rows constant_sodium_csv)).

Definition example_files (path : string) : option DataFrame :=
  if String.eqb path "heart_failure.csv" then Some heart_failure_csv
  else if String.eqb path "constant_sodium.csv" then Some constant_sodium_csv
  else None.

(** Random draws for data with balanced classes: SMOTE then adds nothing,
    and the shuffle is some order of the rows, here the reverse one. *)
Definition example_randomness : randomness :=
  {| permutation := fun _ n => reverse (seq 0 n);
     synthetic := fun _ _ _ => ([], []) |}.

Definition example_lib : forall T : Type, libcall T -> res T :=
  sklearn example_files example_randomness (fun _ _ _ _ => Ok stump).

(** C6 as stated, for a run of training: no held-out row is the
    standardized form of a row that the scaler's statistics were computed
    from. *)
Definition holdout_unseen_by_scaler (lib : forall T : Type, libcall T -> res T)
    (path : string) : Prop :=
  forall st cont sc scaled X y X_train X_test y_train y_test,
    run_train_model lib path = (Ok tt, st) ->
    In cont (fit_inputs (trace st)) ->
    lib _ (fit_transform cont) = Ok (sc, scaled) ->
    In (X, y) (split_inputs (trace st)) ->
    lib _ (train_test_split X y test_size_030 42) = Ok (X_train, X_test, y_train, y_test) ->
    forall raw row,
      In raw cont -> In row X_test ->
      take_cells continuous_indices row <> zip3_with raw (mean_ sc) (scale_ sc).

(** All rows have the same cell in column [j]. *)
Definition constant_column (X : matrix) (j : nat) : Prop :=
  X <> [] /\ exists c, Forall (fun row => row !! j = Some c) X.

(** C8 as stated, for a run of training: when a column given to the
    scaler has no variance the run raises and leaves no fitted pair. *)
Definition zero_variance_is_fatal (lib : forall T : Type, libcall T -> res T)
    (path : string) : Prop :=
  forall r st cont j,
    run_train_model lib path = (r, st) ->
    In cont (fit_inputs (trace st)) -> constant_column cont j ->
    (exists e, r = Raise e) /\
    ~ (exists clf sc,
          self st = {| self_model := Some (Fitted clf); self_scaler := Some (Fitted sc) |}).

(** ** The rest of the server: loading the pickles, the field list

    The two pickle files, at the paths that every caller uses,
    ['cvd_model.pkl'] and ['cvd_scaler.pkl']: absent, or holding the object
    that [save_model] dumped, which is the value of the attribute at that
    time and may be [None]. *)
Record disk : Type := {
  cvd_model_pkl : option (option (estimator Classifier));
  cvd_scaler_pkl : option (option (estimator StandardScaler))
}.

Definition no_files : disk := {| cvd_model_pkl := None; cvd_scaler_pkl := None |}.

(** [os.path.exists] on the two paths *)
Definition model_exists (d : disk) : bool := bool_decide (is_Some (cvd_model_pkl d)).
Definition scaler_exists (d : disk) : bool := bool_decide (is_Some (cvd_scaler_pkl d)).

Definition no_such_file (path : string) : exn :=
  FileNotFoundError ("[Errno 2] No such file or directory: '" +:+ path +:+ "'").

(** [load_model] of [api_server.py]: the outcome and the module globals
    afterwards. *)
Definition load_model (d : disk) (g : globals) : res unit * globals :=
  if negb (model_exists d) || negb (scaler_exists d)
  then (Raise (FileNotFoundError
                 "Model files not found. Please run cvd_risk_predictor.py first to train the model."),
        g)
  else
    match cvd_model_pkl d with
    | None => (Raise (no_such_file "cvd_model.pkl"), g)
    | Some m =>
        let g1 := {| model := m; scaler := scaler g |} in
        match cvd_scaler_pkl d with
        | None => (Raise (no_such_file "cvd_scaler.pkl"), g1)
        | Some s => (Ok tt, {| model := model g1; scaler := s |})
        end
    end.

(** The [/required-fields] route. *)
Definition field_descriptions : list (string * string) :=
  [ ("age", "Age in years");
    ("anaemia", "0 = No, 1 = Yes");
    ("creatinine_phosphokinase", "CPK enzyme level (mcg/L)");
    ("diabetes", "0 = No, 1 = Yes");
    ("ejection_fraction", "Percentage of blood leaving heart (%)");
    ("high_blood_pressure", "0 = No, 1 = Yes");
    ("platelets", "Platelet count (kiloplatelets/mL)");
    ("serum_creatinine", "Serum creatinine level (mg/dL)");
    ("serum_sodium", "Serum sodium level (mEq/L)");
    ("sex", "0 = Female, 1 = Male");
    ("smoking", "0 = No, 1 = Yes");
    ("time", "Follow-up period (days)") ].

Definition get_required_fields : response :=
  {| body := JDict [ ("required_fields", JList (map JStr feature_names));
                     ("descriptions",
                      JDict (map (fun kv => (kv.1, JStr kv.2)) field_descriptions)) ];
     status := 200 |}.

(** A field of the JSON object a route answers with. *)
Definition response_field (k : string) (r : response) : option json :=
  match body r with
  | JDict fields => dict_get k fields
  | _ => None
  end.

(** ** More example data: a training file with one survivor

    Three of the four patients died. With a single sample in the minority
    class imbalanced-learn's SMOTE, which looks for five neighbours, refuses
    to resample. *)
Definition one_survivor_csv : DataFrame :=
  {| columns := csv_columns;
     rows := [ [75; 0; 582; 0; 20; 1; 265000; 1.5; 130; 1; 0; 4; 1];
               [65; 0; 146; 0; 20; 0; 162000; 1.25; 129; 1; 1; 7; 1];
               [49; 1; 80; 0; 30; 1; 427000; 1; 138; 0; 0; 12; 1];
               [45; 0; 582; 0; 80; 0; 263000; 1.25; 137; 0; 0; 63; 0] ]%float |}.

Definition too_few_neighbours : exn :=
  ValueError "Expected n_neighbors <= n_samples_fit, but n_neighbors = 6, n_samples_fit = 1, n_samples = 1".

(** The libraries on that file: as [example_lib], with SMOTE refusing. *)
Definition one_survivor_lib (T : Type) (c : libcall T) : res T :=
  match c in libcall T return res T with
  | read_csv path =>
      if String.eqb path "one_survivor.csv" then Ok one_survivor_csv
      else example_lib _ (read_csv path)
  | SMOTE_fit_resample seed X y => Raise too_few_neighbours
  | drop_duplicates df => example_lib _ (drop_duplicates df)
  | fit_transform X => example_lib _ (fit_transform X)
  | train_test_split X y test_size seed => example_lib _ (train_test_split X y test_size seed)
  | RandomForestClassifier_fit n seed X y => example_lib _ (RandomForestClassifier_fit n seed X y)
  | score m y_true y_pred => example_lib _ (score m y_true y_pred)
  end.

(** The forest calls of a run, by their training data. *)
Definition forest_inputs (tr : list event) : list (matrix * list float) :=
  omap (fun e =>
    match e with
    | Called c =>
        match c with RandomForestClassifier_fit _ _ X y => Some (X, y) | _ => None end
    end) tr.

(** ** Saving and loading a predictor, and the scripts

    [save_model] and [load_model] of [CVDRiskPredictor], at the default
    paths, which are the paths of [disk]. Opening a file that exists and
    writing a file are taken to succeed. *)
Module Predictor.

Definition save_model (this : CVDRiskPredictor) (d : disk) : disk :=
  let d1 := {| cvd_model_pkl := Some (self_model this);
               cvd_scaler_pkl := cvd_scaler_pkl d |} in
  {| cvd_model_pkl := cvd_model_pkl d1; cvd_scaler_pkl := Some (self_scaler this) |}.

Definition load_model (d : disk) (this : CVDRiskPredictor) : res unit * CVDRiskPredictor :=
  match cvd_model_pkl d with
  | None => (Raise (no_such_file "cvd_model.pkl"), this)
  | Some m =>
      let this1 := {| self_model := m; self_scaler := self_scaler this |} in
      match cvd_scaler_pkl d with
      | None => (Raise (no_such_file "cvd_scaler.pkl"), this1)
      | Some s => (Ok tt, {| self_model := self_model this1; self_scaler := s |})
      end
  end.

End Predictor.

(** [isinstance(e, FileNotFoundError)] *)
Definition is_FileNotFoundError (e : exn) : bool :=
  match e with
  | FileNotFoundError _ => true
  | _ => false
  end.

(** [s.replace(old, new)] for a non-empty [old], scanning from the left
    ([String.prefix old s] is [s.startswith(old)]); [skip] counts the
    characters of a match that are still to be passed over. *)
Fixpoint replace_from (old new : string) (skip : nat) (s : string) : string :=
  match s with
  | EmptyString => EmptyString
  | String c s' =>
      match skip with
      | S k => replace_from old new k s'
      | O =>
          if String.prefix old s
          then new +:+ replace_from old new (String.length old - 1) s'
          else String c (replace_from old new 0 s')
      end
  end.

(** [s.replace("", new)]: an empty pattern matches before every character
    and at the end. *)
Fixpoint replace_empty (new s : string) : string :=
  match s with
  | EmptyString => new
  | String c s' => new +:+ String c (replace_empty new s')
  end.

(** [s.replace(old, new)] *)
Definition str_replace (s old new : string) : string :=
  match old with
  | EmptyString => replace_empty new s
  | _ => replace_from old new 0 s
  end.

(** The table [predict_from_excel] returns: the sheet as read and the three
    columns it adds. *)
Record prediction_table : Type := {
  sheet : DataFrame;
  CVD_RISK : list string;
  RISK_PROBABILITY : list string;
  RISK_LEVEL : list string
}.

(** How a run of the batch-file tool ends: it returns, or raises one of the
    exceptions above, or divides by zero. *)
Inductive outcome (A : Type) : Type :=
| Returns (a : A)
| Raises (e : exn)
| RaisesZeroDivisionError (msg : string).
Arguments Returns {A} a.
Arguments Raises {A} e.
Arguments RaisesZeroDivisionError {A} msg.

(** A model method on a matrix [X] of [n] columns: as row by row, after
    the checks that the model is fitted and that there is a row at all. *)
Definition on_matrix {A} (f : Classifier -> list float -> res A)
    (m : estimator Classifier) (n : nat) (X : matrix) : res (list A) :=
  match m with
  | Unfitted => Raise (NotFittedError (not_fitted_msg "RandomForestClassifier"))
  | Fitted c =>
      match X with
      | [] => Raise (ValueError ("Found array with 0 sample(s) (shape=(0, " +:+ pretty n
                                 +:+ ")) while a minimum of 1 is required by RandomForestClassifier."))
      | _ => res_mapM (f c) X
      end
  end.

(** [self.model.predict(X)] *)
Definition model_predict_matrix (m : estimator Classifier) (X : matrix) : res (list float) :=
  on_matrix clf_predict m (length feature_names) X.

(** [self.model.predict_proba(X)[:, 1]] *)
Definition model_proba_matrix (m : estimator Classifier) (X : matrix) : res (list float) :=
  probas ← on_matrix clf_predict_proba m (length feature_names) X;
  res_mapM (fun row =>
    match row !! 1 with
    | Some p => Ok p
    | None => Raise (IndexError "index 1 is out of bounds for axis 1 with size 1")
    end) probas.

(** The format [f"{x:.1%}"]: the value times 100, with one decimal and a
    percent sign. *)
Definition format_percent_1 (x : float) : string :=
  format_1f (x * 100)%float +:+ "%".

(** ['HIGH RISK' if x == 'YES' else 'LOW RISK'] *)
Definition risk_level_of_label (x : string) : string :=
  if String.eqb x "YES" then "HIGH RISK" else "LOW RISK".

Definition training_data : string :=
  "/Users/nandihawkins/Desktop/Class Notes/NCAT/COMP 496/Cardiovascular_Disease_Prediction_with_Explainable_AI/heart_failure.csv".

Section Scripts.

(** The libraries of training, and [pd.read_excel]. *)
Variable lib : forall X : Type, libcall X -> res X.
Variable read_excel : string -> res DataFrame.

(** [predict_from_excel]: how it ends, and the file it writes, if any. *)
Definition predict_from_excel (this : CVDRiskPredictor) (excel_path : string)
    (output_path : option string)
    : outcome prediction_table * option (string * prediction_table) :=
  let computed : res prediction_table :=
    df ← read_excel excel_path;
    X ← excel_features this df;
    m ← attr (self_model this) "predict";
    predictions ← model_predict_matrix m X;
    probabilities ← model_proba_matrix m X;
    let risk_assessment := map cvd_risk_of predictions in
    Ok {| sheet := df;
          CVD_RISK := risk_assessment;
          RISK_PROBABILITY := map format_percent_1 probabilities;
          RISK_LEVEL := map risk_level_of_label risk_assessment |}
  in
  match computed with
  | Raise e => (Raises e, None)
  | Ok df_output =>
      if Nat.eqb (length (rows (sheet df_output))) 0
      then (RaisesZeroDivisionError "division by zero", None)
      else
        match output_path with
        | Some path =>
            if negb (String.eqb path "")
            then (Returns df_output, Some (path, df_output))
            else (Returns df_output, None)
        | None => (Returns df_output, None)
        end
  end.

(** [main] of [cvd_risk_predictor.py]: the outcome, the predictor with the
    library calls made, and the pickle files afterwards. *)
Definition main (d : disk) : res unit * tstate * disk :=
  let st0 := {| self := new_predictor; trace := [] |} in
  if model_exists d && scaler_exists d
  then
    let '(r, this) := Predictor.load_model d (self st0) in
    (r, {| self := this; trace := trace st0 |}, d)
  else
    match train_model lib training_data st0 with
    | (Ok _, st) => (Ok tt, st, Predictor.save_model (self st) d)
    | (Raise e, st) => (Raise e, st, d)
    end.

(** The first step of [predict_cvd_risk]: load the pickles or, when a file
    is missing, train and save. *)
Definition load_or_train (d : disk) : res unit * tstate * disk :=
  let st0 := {| self := new_predictor; trace := [] |} in
  match Predictor.load_model d (self st0) with
  | (Ok _, this) => (Ok tt, {| self := this; trace := trace st0 |}, d)
  | (Raise e, this) =>
      if is_FileNotFoundError e
      then
        match train_model lib "heart_failure.csv" {| self := this; trace := trace st0 |} with
        | (Ok _, st) => (Ok tt, st, Predictor.save_model (self st) d)
        | (Raise e', st) => (Raise e', st, d)
        end
      else (Raise e, {| self := this; trace := trace st0 |}, d)
  end.

(** The path [predict_cvd_risk] gives to [predict_from_excel]. *)
Definition output_path_of (input_excel : string) (output_excel : option string) : string :=
  match output_excel with
  | None => str_replace input_excel ".xlsx" "_results.xlsx"
  | Some path => path
  end.

(** [predict_cvd_risk] of [run_prediction.py]. *)
Definition predict_cvd_risk (d : disk) (input_excel : string) (output_excel : option string)
    : outcome prediction_table * tstate * disk * option (string * prediction_table) :=
  match load_or_train d with
  | (Raise e, st, d') => (Raises e, st, d', None)
  | (Ok _, st, d') =>
      let output_excel := output_path_of input_excel output_excel in
      let '(results, written) := predict_from_excel (self st) input_excel (Some output_excel) in
      (results, st, d', written)
  end.

End Scripts.

(** ** A sheet for the examples

    The example patient and a second one, with the columns in another
    order and a column the schema does not know. *)
Definition example_sheet : DataFrame :=
  {| columns := "patient_id" :: reverse feature_names;
     rows := [ 17%float :: reverse example_values;
               18%float :: reverse [45; 0; 582; 0; 80; 0; 263000; 1.25; 137; 0; 0; 63]%float ] |}.

Definition example_predictor : CVDRiskPredictor :=
  {| self_model := Some (Fitted stump); self_scaler := Some (Fitted example_scaler) |}.

Definition example_excel (path : string) : res DataFrame :=
  if String.eqb path "patients.xlsx" then Ok example_sheet else Raise (no_such_file path).

(** What the example predictor makes of the sheet. *)
Definition example_table : prediction_table :=
  {| sheet := example_sheet;
     CVD_RISK := ["YES"; "NO"];
     RISK_PROBABILITY := ["75.0%"; "25.0%"];
     RISK_LEVEL := ["HIGH RISK"; "LOW RISK"] |}.

(** * Properties *)

(** ** The error monad *)

Lemma res_mapM_ok {A B} (f : A -> res B) (l : list A) (ys : list B) :
  res_mapM f l = Ok ys <-> Forall2 (fun a y => f a = Ok y) l ys.
Proof.
  revert ys. induction l as [|a l IH]; intros ys; simpl.
  - split.
    + intros [= <-]. constructor.
    + intros H. inversion H. reflexivity.
  - split.
    + unfold mbind, res_bind. destruct (f a) as [b|e] eqn:Hfa; [|discriminate].
      destruct (res_mapM f l) as [bs|e] eqn:Hl; [|discriminate].
      intros [= <-]. constructor; [exact Hfa|]. apply IH. reflexivity.
    + intros H. inversion H as [|? y ? ys' Hfa Hrest]; subst.
      apply IH in Hrest. unfold mbind, res_bind. rewrite Hfa, Hrest. reflexivity.
Qed.

(** The first element that fails decides the exception. *)
Lemma res_mapM_raise {A B} (f : A -> res B) (l1 l2 : list A) (a : A) (ys : list B) (e : exn) :
  Forall2 (fun a y => f a = Ok y) l1 ys -> f a = Raise e ->
  res_mapM f (l1 ++ a :: l2) = Raise e.
Proof.
  intros H Ha. induction H as [|a' y l1' ys' Hy _ IH]; simpl; unfold mbind, res_bind.
  - rewrite Ha. reflexivity.
  - rewrite Hy. unfold mbind, res_bind in IH. simpl in IH. rewrite IH. reflexivity.
Qed.

Lemma res_mapM_ext {A B} (f g : A -> res B) (l : list A) :
  (forall a, In a l -> f a = g a) -> res_mapM f l = res_mapM g l.
Proof.
  induction l as [|a l IH]; intros H; simpl; [reflexivity|].
  rewrite (H a) by (left; reflexivity).
  rewrite IH by (intros; apply H; right; assumption). reflexivity.
Qed.

Lemma res_mapM_some_raise {A B} (f : A -> res B) (l : list A) (a : A) (e : exn) :
  In a l -> f a = Raise e -> exists e', res_mapM f l = Raise e'.
Proof.
  induction l as [|b l IH]; intros Hin Ha; [destruct Hin|].
  simpl. unfold mbind, res_bind. destruct (f b) as [y|e1] eqn:Hb; [|eauto].
  destruct Hin as [-> | Hin]; [congruence|].
  destruct (IH Hin Ha) as [e' ->]. eauto.
Qed.

Lemma filter_all {A} (P : A -> Prop) `{forall x, Decision (P x)} (l : list A) :
  Forall P l -> filter P l = l.
Proof.
  induction 1 as [|x l Hx _ IH]; [reflexivity|].
  rewrite filter_cons_True by exact Hx. rewrite IH. reflexivity.
Qed.

(** Filtering a list in which exactly the element at [k] fails. *)
Lemma length_filter_one_out {A} (P : A -> Prop) `{forall x, Decision (P x)}
    (l : list A) (k : nat) (a : A) :
  l !! k = Some a -> ~ P a ->
  (forall j b, j <> k -> l !! j = Some b -> P b) ->
  length (filter P l) = length l - 1.
Proof.
  intros Hk Ha Hrest.
  rewrite <- (take_drop_middle l k a Hk) at 1.
  rewrite filter_app, filter_cons_False by exact Ha.
  assert (Hk' : k < length l) by (eapply lookup_lt_Some; exact Hk).
  rewrite !filter_all.
  - rewrite length_app, length_take, length_drop. lia.
  - apply Forall_forall. intros b Hb. apply list_elem_of_lookup in Hb as [j Hj].
    rewrite lookup_drop in Hj. apply (Hrest (S k + j)); [lia | exact Hj].
  - apply Forall_forall. intros b Hb. apply list_elem_of_lookup in Hb as [j Hj].
    apply lookup_take_Some in Hj as [Hj Hlt]. apply (Hrest j); [lia | exact Hj].
Qed.

(** ** Dictionaries with the same entries *)

(** A dictionary has each key once; the order in which its keys were
    inserted does not change what a key maps to. *)
Lemma dict_get_permutation (k : string) (d1 d2 : list (string * json)) :
  NoDup (fst <$> d1) -> d1 ≡ₚ d2 -> dict_get k d1 = dict_get k d2.
Proof.
  intros Hnd Hperm. induction Hperm as [|[k' v] d1 d2 Hperm IH
                                       |[k1 v1] [k2 v2] d|d1 d2 d3 H12 IH12 H23 IH23].
  - reflexivity.
  - simpl. destruct (String.eqb k k'); [reflexivity|].
    apply IH. simpl in Hnd. apply NoDup_cons in Hnd as [_ Hnd]. exact Hnd.
  - simpl in *. apply NoDup_cons in Hnd as [Hnotin _].
    destruct (String.eqb_spec k k1) as [E1|_], (String.eqb_spec k k2) as [E2|_];
      try reflexivity.
    exfalso. apply Hnotin. rewrite <- E2, E1. left.
  - rewrite IH12 by exact Hnd. apply IH23. rewrite <- H12. exact Hnd.
Qed.

(** ** Scaling a row *)

Lemma scaler_transform_row_ok (sc : StandardScaler) (row : list float) :
  length row = length (mean_ sc) -> length row = length (scale_ sc) ->
  finite_cells row ->
  scaler_transform_row sc row = Ok (zip3_with row (mean_ sc) (scale_ sc)).
Proof.
  intros Hm Hs Hfin. unfold scaler_transform_row.
  rewrite bool_decide_eq_true_2 by (split; assumption). simpl negb. cbv iota.
  clear Hm Hs.
  assert (Hinf : existsb PrimFloat.is_infinity row = false).
  { induction Hfin as [|x row Hx _ IH]; simpl; [reflexivity|]. rewrite Hx. exact IH. }
  rewrite Hinf. reflexivity.
Qed.

Ltac list_of_length l H :=
  repeat (destruct l as [|? l]; [discriminate H|]);
  destruct l; [clear H | discriminate H].

(** Position by position: the continuous cells are standardized, each with
    the statistics of its own column, and the binary cells are kept. *)
Lemma scale_row_spec (sc : StandardScaler) (row : list float) :
  length row = 12 -> length (mean_ sc) = 7 -> length (scale_ sc) = 7 ->
  length (scale_row sc row) = 12 /\
  (forall k var i x mu s,
      continuous_vars !! k = Some var -> feature_names !! i = Some var ->
      row !! i = Some x -> mean_ sc !! k = Some mu -> scale_ sc !! k = Some s ->
      scale_row sc row !! i = Some ((x - mu) / s)%float) /\
  (forall var i,
      In var binary_vars -> feature_names !! i = Some var ->
      scale_row sc row !! i = row !! i).
Proof.
  intros Hlen Hmean Hscale. destruct sc as [mus ss]. simpl in Hmean, Hscale.
  list_of_length row Hlen. list_of_length mus Hmean. list_of_length ss Hscale.
  split; [reflexivity|]. split.
  - intros k var i x mu s Hk Hi Hx Hmu Hs.
    do 7 (destruct k as [|k]; [injection Hk as <-; simpl in Hmu, Hs;
            injection Hmu as <-; injection Hs as <-;
            do 12 (destruct i as [|i]; [simpl in Hi, Hx; try discriminate Hi;
                      injection Hx as <-; reflexivity|]);
            discriminate Hi|]).
    discriminate Hk.
  - intros var i Hvar Hi. simpl in Hvar.
    repeat (destruct Hvar as [<- | Hvar];
            [do 12 (destruct i as [|i]; [simpl in Hi; try discriminate Hi; reflexivity|]);
             discriminate Hi|]).
    destruct Hvar.
Qed.

Lemma take_continuous_length (row : list float) :
  length row = 12 -> length (take_cells continuous_indices row) = 7.
Proof. intros Hlen. list_of_length row Hlen. reflexivity. Qed.

(** ** The batch-file path *)

Lemma column_index_has (name : string) (cols : list string) (i : nat) :
  column_index name cols = Ok i -> existsb (String.eqb name) cols = true.
Proof.
  revert i. induction cols as [|c cols IH]; intros i; simpl; [discriminate|].
  destruct (String.eqb name c); [reflexivity|].
  unfold mbind, res_bind. destruct (column_index name cols) as [j|]; [|discriminate].
  intros _. simpl. apply (IH j). reflexivity.
Qed.

Lemma select_columns_no_missing (df : DataFrame) (names : list string) (cells : matrix) :
  select_columns df names = Ok cells ->
  filter (fun col => has_column df col = false) names = [].
Proof.
  unfold select_columns, mbind, res_bind.
  destruct (res_mapM (fun n => column_index n (columns df)) names) as [idx|] eqn:Hidx;
    [|discriminate].
  intros _. apply res_mapM_ok in Hidx.
  induction Hidx as [|n i names idx Hn _ IH]; [reflexivity|].
  rewrite filter_cons_False; [exact IH|].
  unfold has_column. rewrite (column_index_has _ _ _ Hn). discriminate.
Qed.

Lemma transform_rows_ok (sc : StandardScaler) (cells : matrix) :
  length (mean_ sc) = 7 -> length (scale_ sc) = 7 ->
  Forall (fun r => length r = 12 /\ finite_cells (take_cells continuous_indices r)) cells ->
  res_mapM (scaler_transform_row sc) (map (take_cells continuous_indices) cells)
  = Ok (map (fun r => zip3_with (take_cells continuous_indices r) (mean_ sc) (scale_ sc))
            cells).
Proof.
  intros Hm Hs Hcells. induction Hcells as [|r cells [Hlen Hfin] _ IH]; [reflexivity|].
  cbn [map res_mapM]. unfold mbind, res_bind.
  rewrite scaler_transform_row_ok;
    [| rewrite (take_continuous_length r Hlen); congruence
     | rewrite (take_continuous_length r Hlen); congruence
     | exact Hfin].
  unfold mbind, res_bind in IH. rewrite IH. reflexivity.
Qed.

Lemma zip_with_map_r {A B C} (f : A -> B -> C) (g : A -> B) (l : list A) :
  zip_with f l (map g l) = map (fun a => f a (g a)) l.
Proof. induction l as [|a l IH]; simpl; [reflexivity|]. rewrite IH. reflexivity. Qed.

(** [predict_from_excel] hands the model the rows of the sheet, reordered to
    the schema and scaled like a single record. *)
Lemma excel_features_scaled (this : CVDRiskPredictor) (sc : StandardScaler)
    (df : DataFrame) (cells : matrix) :
  self_scaler this = Some (Fitted sc) ->
  length (mean_ sc) = 7 -> length (scale_ sc) = 7 ->
  select_columns df feature_names = Ok cells -> cells <> [] ->
  Forall (fun r => length r = 12 /\ finite_cells (take_cells continuous_indices r)) cells ->
  excel_features this df = Ok (map (scale_row sc) cells).
Proof.
  intros Hsc Hm Hs Hsel Hne Hcells. unfold excel_features.
  rewrite (select_columns_no_missing df feature_names cells Hsel).
  rewrite bool_decide_eq_true_2 by reflexivity. simpl negb. cbv iota.
  rewrite Hsel. unfold mbind at 1, res_bind at 1. rewrite Hsc.
  unfold attr, mbind at 1, res_bind at 1.
  change (select_columns {| columns := feature_names; rows := cells |} continuous_vars)
    with (Ok (map (take_cells continuous_indices) cells)).
  unfold mbind at 1, res_bind at 1. unfold transform_matrix.
  destruct cells as [|r cells]; [congruence|].
  rewrite (transform_rows_ok sc (r :: cells) Hm Hs Hcells).
  change (map (take_cells continuous_indices) (r :: cells))
    with (take_cells continuous_indices r :: map (take_cells continuous_indices) cells).
  cbv iota. unfold mbind at 1, res_bind at 1.
  unfold assign_columns.
  change (res_mapM (fun n => column_index n (columns {| columns := feature_names;
                                                         rows := r :: cells |}))
            continuous_vars) with (Ok continuous_indices).
  unfold mbind, res_bind. cbn [rows columns].
  rewrite (zip_with_map_r (fun row vals => put_cells continuous_indices vals row)). reflexivity.
Qed.

Section ServerFacts.

Variable float_of_str : string -> option float.
Variable repr : string -> string.

Local Abbreviation py_float := (py_float float_of_str repr).
Local Abbreviation extract_features := (extract_features float_of_str repr).
Local Abbreviation preprocess_patient_data := (preprocess_patient_data float_of_str repr).
Local Abbreviation classify := (classify float_of_str repr).
Local Abbreviation predict := (predict float_of_str repr).
Local Abbreviation batch_entry := (batch_entry float_of_str repr).
Local Abbreviation batch_results := (batch_results float_of_str repr).
Local Abbreviation predict_batch := (predict_batch float_of_str repr).
Local Abbreviation record_values := (record_values float_of_str repr).
Local Abbreviation field := (field float_of_str repr).

Lemma extract_features_dict (names : list string) (d : list (string * json)) :
  extract_features names (JDict d) = res_mapM (field d) names.
Proof.
  induction names as [|f names IH]; simpl; [reflexivity|].
  rewrite <- IH. unfold field, mbind, res_bind. simpl.
  destruct (dict_get f d) as [v|]; simpl; [|reflexivity].
  destruct (py_float v); reflexivity.
Qed.

Lemma record_values_extract (d : list (string * json)) (xs : list float) :
  record_values d xs <-> extract_features feature_names (JDict d) = Ok xs.
Proof.
  rewrite extract_features_dict, res_mapM_ok. unfold record_values.
  split; intros H; eapply Forall2_impl; try exact H; simpl; intros f x.
  - intros (v & Hv & Hx). unfold field. rewrite Hv. exact Hx.
  - unfold field. destruct (dict_get f d) as [v|]; [|discriminate]. eauto.
Qed.

Lemma preprocess_extract_raise (g : globals) (pd : json) (e : exn) :
  extract_features feature_names pd = Raise e ->
  preprocess_patient_data g pd = Raise e.
Proof.
  intros H. unfold preprocess_patient_data. rewrite H. reflexivity.
Qed.

Lemma Forall_field_values (d : list (string * json)) (names : list string) :
  Forall (fun f => exists v x, dict_get f d = Some v /\ py_float v = Ok x) names ->
  exists xs, Forall2 (fun f x => field d f = Ok x) names xs.
Proof.
  induction 1 as [|f names (v & x & Hv & Hx) _ (xs & IH)].
  - exists []. constructor.
  - exists (x :: xs). constructor; [|exact IH]. unfold field. rewrite Hv. exact Hx.
Qed.

(** The exception of the first field, in schema order, that the loop cannot
    use. *)
Lemma extract_first_failure (d : list (string * json)) (before after : list string)
    (f : string) (e : exn) :
  Forall (fun f' => exists v x, dict_get f' d = Some v /\ py_float v = Ok x) before ->
  field d f = Raise e ->
  extract_features (before ++ f :: after) (JDict d) = Raise e.
Proof.
  intros Hb Hf. destruct (Forall_field_values d before Hb) as (xs & Hxs).
  rewrite extract_features_dict. eapply res_mapM_raise; eassumption.
Qed.

(** C3. Vectorization visits the twelve schema names in order. At the first
    name that cannot be used it raises: the error "Missing required field:
    <name>" when the name is absent from the record, the exception of
    [float] when the value is present but not a number. A record that lacks
    only [serum_sodium] fails with the error naming [serum_sodium]. A record
    with all twelve fields present and numeric gives the vector of exactly
    those twelve numbers, in schema order. *)
Theorem vectorize_field_errors (g : globals) (d : list (string * json)) :
  (forall before f after,
      feature_names = before ++ f :: after ->
      Forall (fun f' => exists v x, dict_get f' d = Some v /\ py_float v = Ok x) before ->
      (dict_get f d = None ->
         extract_features feature_names (JDict d)
           = Raise (ValueError ("Missing required field: " +:+ f)) /\
         preprocess_patient_data g (JDict d)
           = Raise (ValueError ("Missing required field: " +:+ f))) /\
      (forall v e, dict_get f d = Some v -> py_float v = Raise e ->
         extract_features feature_names (JDict d) = Raise e /\
         preprocess_patient_data g (JDict d) = Raise e)) /\
  ((forall f, In f feature_names -> f <> "serum_sodium" ->
      exists v x, dict_get f d = Some v /\ py_float v = Ok x) ->
   dict_get "serum_sodium" d = None ->
   preprocess_patient_data g (JDict d)
     = Raise (ValueError "Missing required field: serum_sodium")) /\
  (forall xs, record_values d xs ->
      extract_features feature_names (JDict d) = Ok xs /\ length xs = 12 /\
      forall i f, feature_names !! i = Some f ->
        exists v x, dict_get f d = Some v /\ py_float v = Ok x /\ xs !! i = Some x).
Proof.
  assert (Hfirst : forall before f after e,
             feature_names = before ++ f :: after ->
             Forall (fun f' => exists v x, dict_get f' d = Some v /\ py_float v = Ok x) before ->
             field d f = Raise e ->
             extract_features feature_names (JDict d) = Raise e /\
             preprocess_patient_data g (JDict d) = Raise e).
  { intros before f after e Hsplit Hb Hf.
    assert (He : extract_features feature_names (JDict d) = Raise e)
      by (rewrite Hsplit; apply extract_first_failure; assumption).
    split; [exact He | apply preprocess_extract_raise; exact He]. }
  split; [|split].
  - intros before f after Hsplit Hb. split.
    + intros Hnone. apply (Hfirst before f after); try assumption.
      unfold field. rewrite Hnone. reflexivity.
    + intros v e Hv He. apply (Hfirst before f after); try assumption.
      unfold field. rewrite Hv. exact He.
  - intros Hothers Hnone.
    apply (Hfirst (take 8 feature_names) "serum_sodium" (drop 9 feature_names)).
    + reflexivity.
    + apply Forall_forall. intros f Hin. simpl in Hin. cbv beta.
      repeat (apply elem_of_cons in Hin; destruct Hin as [-> | Hin];
              [apply Hothers; [simpl; auto 15 | discriminate] |]).
      inversion Hin.
    + unfold field. rewrite Hnone. reflexivity.
  - intros xs Hxs. split; [apply record_values_extract; exact Hxs|].
    split; [symmetry; exact (Forall2_length _ _ _ Hxs)|].
    intros i f Hi. unfold record_values in Hxs.
    destruct (Forall2_lookup_l _ _ _ _ _ Hxs Hi) as (x & Hx & v & Hv & Hfl).
    exists v, x. auto.
Qed.

(** [continuous_indices] is what the list comprehension of
    [preprocess_patient_data] computes. *)
Lemma continuous_indices_computed :
  res_mapM (fun var => list_index var feature_names) continuous_vars = Ok continuous_indices.
Proof. reflexivity. Qed.

Lemma preprocess_after_extract (g : globals) (sc : StandardScaler) (pd : json) (xs : list float) :
  scaler g = Some (Fitted sc) ->
  extract_features feature_names pd = Ok xs ->
  preprocess_patient_data g pd =
    (cols ← take_columns continuous_indices xs;
     scaled ← scaler_transform_row sc cols;
     Ok (put_cells continuous_indices scaled xs)).
Proof.
  intros Hsc Hxs. unfold preprocess_patient_data.
  rewrite Hxs, continuous_indices_computed, Hsc. reflexivity.
Qed.

Lemma preprocess_ready (g : globals) (sc : StandardScaler) (d : list (string * json))
    (xs : list float) :
  scaler g = Some (Fitted sc) ->
  length (mean_ sc) = 7 -> length (scale_ sc) = 7 ->
  record_values d xs ->
  finite_cells (take_cells continuous_indices xs) ->
  preprocess_patient_data g (JDict d) = Ok (scale_row sc xs).
Proof.
  intros Hsc Hmean Hscale Hxs Hfin.
  assert (Hlen : length xs = 12) by (symmetry; exact (Forall2_length _ _ _ Hxs)).
  apply record_values_extract in Hxs.
  rewrite (preprocess_after_extract g sc (JDict d) xs Hsc Hxs).
  assert (Htake : take_columns continuous_indices xs = Ok (take_cells continuous_indices xs)).
  { clear -Hlen. list_of_length xs Hlen. reflexivity. }
  rewrite Htake. unfold mbind, res_bind.
  rewrite scaler_transform_row_ok;
    [reflexivity
    | rewrite (take_continuous_length xs Hlen); congruence
    | rewrite (take_continuous_length xs Hlen); congruence
    | exact Hfin].
Qed.

(** C2. For a record with all twelve fields numeric (the continuous ones
    not infinite, which the scaler would refuse) and a scaler fitted on the
    seven continuous columns, preprocessing returns twelve numbers: at the
    position of each continuous variable the value standardized with that
    variable's mean and scale, [(x - mean) / scale]; at the position of each
    of the five binary variables the value of the record, unchanged. That
    vector is what the classifier is called on. The batch-file path,
    [predict_from_excel], scales every row of its sheet in the same way. *)
Theorem preprocess_scales_continuous_only (g : globals) (sc : StandardScaler)
    (d : list (string * json)) (xs : list float) :
  scaler g = Some (Fitted sc) ->
  length (mean_ sc) = 7 -> length (scale_ sc) = 7 ->
  record_values d xs ->
  finite_cells (take_cells continuous_indices xs) ->
  let out := scale_row sc xs in
  preprocess_patient_data g (JDict d) = Ok out /\
  length xs = 12 /\ length out = 12 /\
  (forall k var i x mu s,
      continuous_vars !! k = Some var -> feature_names !! i = Some var ->
      xs !! i = Some x -> mean_ sc !! k = Some mu -> scale_ sc !! k = Some s ->
      out !! i = Some ((x - mu) / s)%float) /\
  (forall var i,
      In var binary_vars -> feature_names !! i = Some var -> out !! i = xs !! i) /\
  classify g (JDict d) =
    (m ← attr (model g) "predict";
     prediction ← model_predict m out;
     probability ← positive_proba m out;
     Ok (prediction, probability)) /\
  (forall this df cells,
      self_scaler this = Some (Fitted sc) ->
      select_columns df feature_names = Ok cells -> cells <> [] ->
      Forall (fun r => length r = 12 /\ finite_cells (take_cells continuous_indices r))
             cells ->
      excel_features this df = Ok (map (scale_row sc) cells)).
Proof.
  intros Hsc Hmean Hscale Hxs Hfin out.
  assert (Hlen : length xs = 12) by (symmetry; exact (Forall2_length _ _ _ Hxs)).
  pose proof (preprocess_ready g sc d xs Hsc Hmean Hscale Hxs Hfin) as Hpre.
  destruct (scale_row_spec sc xs Hlen Hmean Hscale) as (Hout & Hcont & Hbin).
  split; [exact Hpre|]. split; [exact Hlen|]. split; [exact Hout|].
  split; [exact Hcont|]. split; [exact Hbin|]. split.
  - unfold classify. rewrite Hpre. reflexivity.
  - intros this df cells Hthis Hsel Hne Hcells.
    exact (excel_features_scaled this sc df cells Hthis Hmean Hscale Hsel Hne Hcells).
Qed.

(** What a successful [classify] went through. *)
Lemma classify_ok_inv (g : globals) (pd : json) (prediction probability : float) :
  classify g pd = Ok (prediction, probability) ->
  exists features c row,
    preprocess_patient_data g pd = Ok features /\
    model g = Some (Fitted c) /\
    clf_predict c features = Ok prediction /\
    clf_predict_proba c features = Ok row /\
    row !! 1 = Some probability.
Proof.
  unfold classify, positive_proba, mbind, res_bind.
  destruct (preprocess_patient_data g pd) as [features|] eqn:Hpre; [|discriminate].
  destruct (model g) as [[|c]|]; simpl; try discriminate.
  destruct (clf_predict c features) as [pr|] eqn:Hp; [|discriminate].
  destruct (clf_predict_proba c features) as [row|] eqn:Hrow; [|discriminate].
  destruct (row !! 1) as [pb|] eqn:Hpb; [|discriminate].
  intros [= <- <-]. exists features, c, row. auto.
Qed.

Lemma risk_label_cases (prediction : float) :
  (cvd_risk_of prediction = "YES" /\ risk_level_of prediction = "HIGH RISK") \/
  (cvd_risk_of prediction = "NO" /\ risk_level_of prediction = "LOW RISK").
Proof.
  unfold cvd_risk_of, risk_level_of.
  destruct (PrimFloat.eqb prediction 1); [left | right]; split; reflexivity.
Qed.

(** The fields of a result marked successful are those of some successful
    [classify]. *)
Lemma success_fields_inv (g : globals) (pd : json) (fields : list (string * json)) :
  body (predict g pd) = JDict fields \/ (exists i, batch_entry g i pd = JDict fields) ->
  dict_get "success" fields = Some (JBool true) ->
  exists prediction probability,
    classify g pd = Ok (prediction, probability) /\
    dict_get "cvd_risk" fields = Some (JStr (cvd_risk_of prediction)) /\
    dict_get "risk_level" fields = Some (JStr (risk_level_of prediction)) /\
    dict_get "risk_probability" fields = Some (JFloat probability).
Proof.
  intros [Hb | [i Hb]] Hs.
  - unfold predict in Hb. destruct (py_truthy pd); simpl in Hb.
    + destruct (classify g pd) as [[pr pb]|e] eqn:Hc.
      * injection Hb as <-. exists pr, pb. auto.
      * destruct (is_ValueError e); injection Hb as <-; discriminate Hs.
    + injection Hb as <-. discriminate Hs.
  - unfold batch_entry in Hb. destruct (classify g pd) as [[pr pb]|e] eqn:Hc.
    + injection Hb as <-. exists pr, pb. auto.
    + injection Hb as <-. discriminate Hs.
Qed.

(** C4. Every successful result of the single or the batch route carries a
    label that is YES or NO, a risk level that is HIGH RISK exactly when the
    label is YES and LOW RISK exactly when it is NO, and as probability the
    classifier's estimate for the positive class, which lies in [0, 1] as
    the classifier's estimates do. *)
Theorem prediction_result_invariants (g : globals) (pd : json)
    (fields : list (string * json)) :
  probabilities_valid g ->
  body (predict g pd) = JDict fields \/ (exists i, batch_entry g i pd = JDict fields) ->
  dict_get "success" fields = Some (JBool true) ->
  exists label level probability,
    dict_get "cvd_risk" fields = Some (JStr label) /\
    dict_get "risk_level" fields = Some (JStr level) /\
    dict_get "risk_probability" fields = Some (JFloat probability) /\
    (label = "YES" \/ label = "NO") /\
    (label = "YES" <-> level = "HIGH RISK") /\
    (label = "NO" <-> level = "LOW RISK") /\
    (exists features c row,
        preprocess_patient_data g pd = Ok features /\
        model g = Some (Fitted c) /\
        clf_predict_proba c features = Ok row /\
        row !! 1 = Some probability) /\
    in_unit_interval probability.
Proof.
  intros Hvalid Hfields Hsuccess.
  destruct (success_fields_inv g pd fields Hfields Hsuccess)
    as (pr & pb & Hc & Hlabel & Hlevel & Hpb).
  destruct (classify_ok_inv g pd pr pb Hc) as (features & c & row & Hpre & Hm & _ & Hrow & H1).
  exists (cvd_risk_of pr), (risk_level_of pr), pb.
  repeat (split; [assumption|]).
  split; [destruct (risk_label_cases pr) as [[-> _]|[-> _]]; auto|].
  split; [destruct (risk_label_cases pr) as [[-> ->]|[-> ->]]; split; congruence|].
  split; [destruct (risk_label_cases pr) as [[-> ->]|[-> ->]]; split; congruence|].
  split; [exists features, c, row; auto|].
  apply (Hvalid c features row pb Hm Hrow).
  apply list_elem_of_In. eapply list_elem_of_lookup_2. exact H1.
Qed.

Lemma entry_success_batch_entry (g : globals) (i : nat) (pd : json) :
  entry_success (batch_entry g i pd) = is_ok (classify g pd).
Proof.
  unfold batch_entry. destruct (classify g pd) as [[pr pb]|e]; reflexivity.
Qed.

Lemma batch_success_count (g : globals) (l : list json) (h : nat -> nat) :
  length (filter (fun r => entry_success r = true) (imap (fun i => batch_entry g (h i)) l))
  = length (filter (fun pd => is_ok (classify g pd) = true) l).
Proof.
  revert h. induction l as [|pd l IH]; intros h; [reflexivity|].
  rewrite imap_cons. rewrite !filter_cons. rewrite entry_success_batch_entry.
  specialize (IH (h ∘ S)). unfold compose in *.
  destruct (decide (is_ok (classify g pd) = true)); simpl; rewrite IH; reflexivity.
Qed.

Lemma classify_missing_field (g : globals) (d : list (string * json)) (f : string) :
  In f feature_names -> dict_get f d = None ->
  exists e, classify g (JDict d) = Raise e.
Proof.
  intros Hin Hnone.
  destruct (res_mapM_some_raise (field d) feature_names f
              (ValueError ("Missing required field: " +:+ f)) Hin) as [e He].
  { unfold field. rewrite Hnone. reflexivity. }
  exists e. unfold classify.
  rewrite (preprocess_extract_raise g (JDict d) e); [reflexivity|].
  rewrite extract_features_dict. exact He.
Qed.

(** C1. The batch route answers a list of records with one entry per record,
    in the order of the records, each computed from its own record alone
    and tagged with its position. A record whose prediction raises (one
    that lacks a field, for instance) gives an error entry at its position
    and the records after it are still processed. [total] is the number of
    records, [successful] the number of records whose prediction succeeded:
    when exactly one record fails it is the number of records minus one, and
    every other record has its result at its own position. *)
Theorem predict_batch_isolates_failures (g : globals) (d : list (string * json))
    (patients : list json) :
  dict_get "patients" d = Some (JList patients) ->
  let results := batch_results g patients in
  let successful := length (filter (fun r => entry_success r = true) results) in
  predict_batch g (JDict d) =
    {| body := JDict [ ("results", JList results);
                       ("total", JInt (Z.of_nat (length patients)));
                       ("successful", JInt (Z.of_nat successful)) ];
       status := 200 |} /\
  length results = length patients /\
  (forall i pd, patients !! i = Some pd -> results !! i = Some (batch_entry g i pd)) /\
  (forall i pd e, patients !! i = Some pd -> classify g pd = Raise e ->
      results !! i = Some (JDict [ ("patient_index", JInt (Z.of_nat i));
                                   ("error", JStr (str_exn e));
                                   ("success", JBool false) ])) /\
  (forall i pd prediction probability,
      patients !! i = Some pd -> classify g pd = Ok (prediction, probability) ->
      results !! i = Some (JDict (("patient_index", JInt (Z.of_nat i))
                                    :: result_fields prediction probability))) /\
  (forall i rec f, patients !! i = Some (JDict rec) ->
      In f feature_names -> dict_get f rec = None ->
      exists e, classify g (JDict rec) = Raise e) /\
  successful = length (filter (fun pd => is_ok (classify g pd) = true) patients) /\
  (forall k pd e,
      patients !! k = Some pd -> classify g pd = Raise e ->
      (forall j pd', j <> k -> patients !! j = Some pd' -> exists r, classify g pd' = Ok r) ->
      successful = length patients - 1).
Proof.
  intros Hp results successful.
  assert (Hlookup : forall i pd, patients !! i = Some pd ->
                                 results !! i = Some (batch_entry g i pd)).
  { intros i pd Hi. unfold results, batch_results. rewrite list_lookup_imap, Hi. reflexivity. }
  assert (Hcount : successful
                   = length (filter (fun pd => is_ok (classify g pd) = true) patients)).
  { unfold successful, results, batch_results.
    exact (batch_success_count g patients (fun i => i)). }
  split.
  { unfold predict_batch, py_in, py_getitem, mbind, res_bind.
    destruct d as [|kv d']; [discriminate Hp|].
    change (py_truthy (JDict (kv :: d'))) with true. cbv iota beta. simpl negb.
    rewrite Hp. rewrite bool_decide_eq_true_2 by eauto. reflexivity. }
  split; [apply length_imap|].
  split; [exact Hlookup|].
  split.
  { intros i pd e Hi He. rewrite (Hlookup i pd Hi). unfold batch_entry. rewrite He. reflexivity. }
  split.
  { intros i pd pr pb Hi Hc. rewrite (Hlookup i pd Hi). unfold batch_entry. rewrite Hc. reflexivity. }
  split.
  { intros i rec f _ Hin Hnone. exact (classify_missing_field g rec f Hin Hnone). }
  split; [exact Hcount|].
  intros k pd e Hk He Hothers. rewrite Hcount.
  apply (length_filter_one_out _ patients k pd Hk).
  - rewrite He. discriminate.
  - intros j pd' Hj Hpd'. destruct (Hothers j pd' Hj Hpd') as [r ->]. reflexivity.
Qed.

(** Vectorization reads a dictionary through the schema names only. *)
Lemma extract_features_agree (d1 d2 : list (string * json)) :
  (forall f, In f feature_names -> dict_get f d1 = dict_get f d2) ->
  extract_features feature_names (JDict d1) = extract_features feature_names (JDict d2).
Proof.
  intros Hagree. rewrite !extract_features_dict. apply res_mapM_ext.
  intros f Hf. unfold field. rewrite (Hagree f Hf). reflexivity.
Qed.

Lemma preprocess_agree (g : globals) (pd1 pd2 : json) :
  extract_features feature_names pd1 = extract_features feature_names pd2 ->
  preprocess_patient_data g pd1 = preprocess_patient_data g pd2.
Proof. intros H. unfold preprocess_patient_data. rewrite H. reflexivity. Qed.

Lemma classify_agree (g : globals) (pd1 pd2 : json) :
  extract_features feature_names pd1 = extract_features feature_names pd2 ->
  classify g pd1 = classify g pd2.
Proof. intros H. unfold classify. rewrite (preprocess_agree g pd1 pd2 H). reflexivity. Qed.

Lemma predict_agree (g : globals) (pd1 pd2 : json) :
  py_truthy pd1 = py_truthy pd2 ->
  extract_features feature_names pd1 = extract_features feature_names pd2 ->
  predict g pd1 = predict g pd2.
Proof.
  intros Ht H. unfold predict. rewrite Ht, (classify_agree g pd1 pd2 H). reflexivity.
Qed.

(** No route changes the loaded model and scaler. *)
Lemma serve_state (g : globals) (rqs : list request) :
  (serve float_of_str repr g rqs).2 = g.
Proof.
  induction rqs as [|rq rqs IH]; [reflexivity|]. simpl.
  destruct rq; simpl; destruct (serve float_of_str repr g rqs) as [rs g']; simpl in *;
    exact IH.
Qed.

Lemma serve_app (g : globals) (rqs1 rqs2 : list request) :
  (serve float_of_str repr g (rqs1 ++ rqs2)).1
  = (serve float_of_str repr g rqs1).1 ++ (serve float_of_str repr g rqs2).1.
Proof.
  induction rqs1 as [|rq rqs1 IH]; simpl.
  - destruct (serve float_of_str repr g rqs2); reflexivity.
  - destruct rq; simpl;
      destruct (serve float_of_str repr g (rqs1 ++ rqs2)) as [rs g'];
      destruct (serve float_of_str repr g rqs1) as [rs1 g1]; simpl in *;
      rewrite IH; reflexivity.
Qed.

(** C9. A prediction is a function of the record and of the loaded model and
    scaler, and serving requests leaves these unchanged: the same record
    posted again, after any requests in between, gets the very same
    response. Two dictionaries with the same entries in different insertion
    orders give the same feature vector and the same response. *)
Theorem predict_deterministic (g : globals) (pd : json) :
  (forall between,
      serve float_of_str repr g (POST_predict pd :: between ++ [POST_predict pd])
      = (predict g pd :: (serve float_of_str repr g between).1 ++ [predict g pd], g)) /\
  (forall d1 d2,
      NoDup (fst <$> d1) -> d1 ≡ₚ d2 ->
      extract_features feature_names (JDict d1) = extract_features feature_names (JDict d2) /\
      preprocess_patient_data g (JDict d1) = preprocess_patient_data g (JDict d2) /\
      predict g (JDict d1) = predict g (JDict d2)).
Proof.
  split.
  - intros between.
    pose proof (serve_state g (POST_predict pd :: between ++ [POST_predict pd])) as Hst.
    pose proof (serve_app g between [POST_predict pd]) as Happ.
    simpl in *.
    destruct (serve float_of_str repr g (between ++ [POST_predict pd])) as [rs g'].
    simpl in *. subst g'. rewrite Happ. reflexivity.
  - intros d1 d2 Hnd Hperm.
    assert (Hx : extract_features feature_names (JDict d1)
                 = extract_features feature_names (JDict d2)).
    { apply extract_features_agree. intros f _. apply dict_get_permutation; assumption. }
    split; [exact Hx|]. split; [apply preprocess_agree; exact Hx|].
    apply predict_agree; [|exact Hx].
    apply Permutation_length in Hperm.
    destruct d1, d2; try reflexivity; discriminate Hperm.
Qed.

(** C10. Only the twelve schema names are looked up in a record. Two records
    that agree on them, whatever other keys each has, give the same outcome
    of preprocessing (the same vector, or the same exception), the same
    batch entry, and, neither being empty, the same response of the single
    route; so a key outside the schema never turns a success into an
    error. *)
Theorem extra_keys_ignored (g : globals) (d1 d2 : list (string * json)) :
  (forall f, In f feature_names -> dict_get f d1 = dict_get f d2) ->
  preprocess_patient_data g (JDict d1) = preprocess_patient_data g (JDict d2) /\
  classify g (JDict d1) = classify g (JDict d2) /\
  (forall i, batch_entry g i (JDict d1) = batch_entry g i (JDict d2)) /\
  (d1 <> [] -> d2 <> [] -> predict g (JDict d1) = predict g (JDict d2)) /\
  (forall xs, record_values d1 xs -> predict g (JDict d1) = predict g (JDict d2)).
Proof.
  intros Hagree.
  pose proof (extract_features_agree d1 d2 Hagree) as Hx.
  split; [apply preprocess_agree; exact Hx|].
  split; [apply classify_agree; exact Hx|].
  split; [intros i; unfold batch_entry; rewrite (classify_agree g _ _ Hx); reflexivity|].
  assert (Hne : d1 <> [] -> d2 <> [] -> predict g (JDict d1) = predict g (JDict d2)).
  { intros H1 H2. apply predict_agree; [|exact Hx].
    destruct d1, d2; try reflexivity; congruence. }
  split; [exact Hne|].
  intros xs Hxs. apply Hne.
  - intros ->. inversion Hxs as [|f x fs xs' (v & Hv & _) _]. discriminate Hv.
  - intros ->. pose proof (Hagree "age" ltac:(left; reflexivity)) as Hage.
    inversion Hxs as [|f x fs xs' (v & Hv & _) _]. simpl in Hage. congruence.
Qed.

Lemma predict_without_scaler (g : globals) (pd : json) :
  scaler g = None ->
  predict g pd =
    if negb (py_truthy pd)
    then {| body := JDict [("error", JStr "No data provided")]; status := 400 |}
    else
      match extract_features feature_names pd with
      | Raise e =>
          if is_ValueError e then error_400 (str_exn e)
          else error_500 ("Prediction failed: " +:+ str_exn e)
      | Ok _ =>
          error_500 "Prediction failed: 'NoneType' object has no attribute 'transform'"
      end.
Proof.
  intros Hsc. unfold predict, classify, preprocess_patient_data.
  destruct (py_truthy pd); [|reflexivity]. simpl negb. cbv iota.
  destruct (extract_features feature_names pd) as [xs|e]; [|reflexivity].
  rewrite Hsc. reflexivity.
Qed.

(** C7, as the server has it. Before a scaler is loaded a prediction request
    never succeeds, and there is no error kind of its own for this: an
    empty body is answered 400 "No data provided"; a record whose
    vectorization raises is answered with that exception (400 for a
    [ValueError], otherwise the generic 500); every record that vectorizes
    is answered by the generic handler, 500 "Prediction failed: 'NoneType'
    object has no attribute 'transform'". *)
Theorem predict_before_load (g : globals) (pd : json) :
  scaler g = None ->
  status (predict g pd) <> 200%Z /\
  (py_truthy pd = false ->
     predict g pd = {| body := JDict [("error", JStr "No data provided")]; status := 400 |}) /\
  (forall e, py_truthy pd = true -> extract_features feature_names pd = Raise e ->
     predict g pd = if is_ValueError e then error_400 (str_exn e)
                    else error_500 ("Prediction failed: " +:+ str_exn e)) /\
  (forall xs, py_truthy pd = true -> extract_features feature_names pd = Ok xs ->
     predict g pd
       = error_500 "Prediction failed: 'NoneType' object has no attribute 'transform'" /\
     generic_failure (predict g pd)).
Proof.
  intros Hsc. rewrite (predict_without_scaler g pd Hsc).
  split; [|split; [|split]].
  - destruct (py_truthy pd); [|simpl; lia].
    change (negb true) with false. cbv iota.
    destruct (extract_features feature_names pd) as [xs|e]; [simpl; lia|].
    destruct (is_ValueError e); simpl; lia.
  - intros ->. reflexivity.
  - intros e -> ->. reflexivity.
  - intros xs -> ->. simpl. split; [reflexivity|].
    exists "'NoneType' object has no attribute 'transform'". reflexivity.
Qed.

End ServerFacts.

(** ** The example record *)

Lemma example_record_values :
  record_values float_of_str_none repr_plain example_patient example_values.
Proof.
  unfold record_values, feature_names, example_values.
  repeat (constructor; [eexists; split; [reflexivity | vm_compute; reflexivity]|]).
  constructor.
Qed.

Lemma stump_probabilities_valid : probabilities_valid example_globals.
Proof.
  intros c x row p [= <-] Hrow Hp. simpl in Hrow.
  destruct (x !! 4) as [ef|]; [|discriminate].
  injection Hrow as <-.
  destruct (PrimFloat.ltb ef 0); simpl in Hp;
    destruct Hp as [<- | [<- | []]]; split; reflexivity.
Qed.

Lemma vectorize_field_errors_witness :
  preprocess_patient_data float_of_str_none repr_plain example_globals
    (JDict patient_without_sodium)
  = Raise (ValueError "Missing required field: serum_sodium").
Proof.
  apply (proj1 (proj2 (vectorize_field_errors float_of_str_none repr_plain
                         example_globals patient_without_sodium))).
  - intros f Hin Hne. simpl in Hin.
    repeat (destruct Hin as [<- | Hin];
            [first [congruence | do 2 eexists; split; [reflexivity | vm_compute; reflexivity]]|]).
    destruct Hin.
  - reflexivity.
Defined.

Lemma preprocess_scales_continuous_only_witness :
  exists out,
    preprocess_patient_data float_of_str_none repr_plain example_globals
      (JDict example_patient) = Ok out /\
    length out = 12 /\
    out !! 4 = Some ((20 - 38) / 12)%float /\
    out !! 9 = Some 1%float.
Proof.
  destruct (preprocess_scales_continuous_only float_of_str_none repr_plain
              example_globals example_scaler example_patient example_values
              eq_refl eq_refl eq_refl example_record_values)
    as (Hout & _ & Hlen & Hcont & Hbin & _);
    [unfold finite_cells; repeat constructor|].
  eexists. split; [exact Hout|]. split; [exact Hlen|]. split.
  - apply (Hcont 2 "ejection_fraction" 4 20%float 38%float 12%float); reflexivity.
  - rewrite (Hbin "sex" 9); [reflexivity | simpl; auto 10 | reflexivity].
Defined.

Lemma prediction_result_invariants_witness :
  exists label level probability,
    dict_get "cvd_risk" (result_fields 1 0.75) = Some (JStr label) /\
    dict_get "risk_level" (result_fields 1 0.75) = Some (JStr level) /\
    dict_get "risk_probability" (result_fields 1 0.75) = Some (JFloat probability) /\
    (label = "YES" <-> level = "HIGH RISK") /\
    in_unit_interval probability.
Proof.
  destruct (prediction_result_invariants float_of_str_none repr_plain example_globals
              (JDict example_patient) (result_fields 1 0.75)
              stump_probabilities_valid)
    as (label & level & p & H1 & H2 & H3 & _ & H5 & _ & _ & H8).
  - left. vm_compute. reflexivity.
  - reflexivity.
  - exists label, level, p. auto.
Defined.

(** A batch of three records, the second without [serum_sodium]. *)
Lemma predict_batch_isolates_failures_witness :
  let patients := [JDict example_patient; JDict patient_without_sodium;
                   JDict example_patient_with_note] in
  let results := batch_results float_of_str_none repr_plain example_globals patients in
  length (filter (fun r => entry_success r = true) results) = 2 /\
  results !! 1 = Some (JDict [ ("patient_index", JInt 1);
                               ("error", JStr "Missing required field: serum_sodium");
                               ("success", JBool false) ]).
Proof.
  intros patients results.
  destruct (predict_batch_isolates_failures float_of_str_none repr_plain example_globals
              [("patients", JList patients)] patients eq_refl)
    as (_ & _ & _ & Herr & _ & _ & _ & Hone).
  split.
  - apply (Hone 1 (JDict patient_without_sodium)
             (ValueError "Missing required field: serum_sodium")).
    + reflexivity.
    + vm_compute. reflexivity.
    + intros j pd Hj Hpd.
      destruct j as [|[|[|j]]]; [| congruence | | discriminate Hpd];
        injection Hpd as <-; eexists; vm_compute; reflexivity.
  - apply (Herr 1 (JDict patient_without_sodium)
             (ValueError "Missing required field: serum_sodium")).
    + reflexivity.
    + vm_compute. reflexivity.
Defined.

Lemma predict_deterministic_witness :
  predict float_of_str_none repr_plain example_globals (JDict example_patient)
  = predict float_of_str_none repr_plain example_globals (JDict (reverse example_patient)).
Proof.
  apply (proj2 (predict_deterministic float_of_str_none repr_plain example_globals JNull)).
  - apply (bool_decide_unpack (NoDup (fst <$> example_patient))). vm_compute. exact I.
  - symmetry. apply reverse_Permutation.
Defined.

Lemma extra_keys_ignored_witness :
  predict float_of_str_none repr_plain example_globals (JDict example_patient_with_note)
  = predict float_of_str_none repr_plain example_globals (JDict example_patient).
Proof.
  apply (extra_keys_ignored float_of_str_none repr_plain example_globals
           example_patient_with_note example_patient).
  - intros f Hin. simpl in Hin.
    repeat (destruct Hin as [<- | Hin]; [reflexivity|]). destruct Hin.
  - discriminate.
  - discriminate.
Defined.

Lemma predict_before_load_witness :
  generic_failure
    (predict float_of_str_none repr_plain initial_globals (JDict example_patient)).
Proof.
  destruct (predict_before_load float_of_str_none repr_plain initial_globals
              (JDict example_patient) eq_refl) as (_ & _ & _ & Hgeneric).
  apply (Hgeneric example_values).
  - reflexivity.
  - vm_compute. reflexivity.
Defined.

(** C7 as stated fails: with no model and no scaler loaded, the record of
    the docstring is answered by the generic handler, not by an error of a
    kind of its own. *)
Lemma predict_before_load_is_generic :
  predict float_of_str_none repr_plain initial_globals (JDict example_patient)
  = {| body := JDict
         [ ("error", JStr "Prediction failed: 'NoneType' object has no attribute 'transform'");
           ("success", JBool false) ];
       status := 500 |} /\
  ~ distinct_failure
      (predict float_of_str_none repr_plain initial_globals (JDict example_patient)).
Proof.
  split; [vm_compute; reflexivity|].
  intros [_ Hnot]. apply Hnot.
  exists "'NoneType' object has no attribute 'transform'". vm_compute. reflexivity.
Qed.

(** ** Training *)

Section TrainingFacts.

Variable lib : forall X : Type, libcall X -> res X.

Ltac unfold_train :=
  unfold run_train_model, train_model, call, lift, set_scaler, set_model,
    mbind, M_bind, mret, M_ret; cbn [self trace self_model self_scaler new_predictor app].

(** The next library call of the run either raises or answers. *)
Ltac next_call :=
  match goal with
  | |- context [lib ?T ?c] =>
      let r := fresh "r" in
      let H := fresh "Hcall" in
      destruct (lib T c) as [r|?] eqn:H; cbn [fst snd app]
  end.

Ltac next_res :=
  match goal with
  | |- context [match ?c with Ok _ => _ | Raise _ => _ end] =>
      let H := fresh "Hres" in
      destruct c eqn:H; cbn [fst snd app]
  end.

Ltac run_to_end :=
  unfold_train;
  repeat first [ next_call | next_res
               | match goal with |- context [let '(_, _) := ?p in _] => destruct p end ].

(** A run that returns made every call and every call answered. *)
Lemma train_model_run_inv (path : string) (st : tstate) :
  run_train_model lib path = (Ok tt, st) ->
  exists df0 df1 cont sc scaled df2 y X' y' X_train X_test y_train y_test clf y_pred,
    lib _ (read_csv path) = Ok df0 /\
    lib _ (drop_duplicates df0) = Ok df1 /\
    select_columns df1 continuous_vars = Ok cont /\
    lib _ (fit_transform cont) = Ok (sc, scaled) /\
    assign_columns df1 continuous_vars scaled = Ok df2 /\
    iloc_last df2 = Ok y /\
    lib _ (SMOTE_fit_resample 42 (iloc_all_but_last df2) y) = Ok (X', y') /\
    lib _ (train_test_split X' y' test_size_030 42)
      = Ok (X_train, X_test, y_train, y_test) /\
    lib _ (RandomForestClassifier_fit 100 42 X_train y_train) = Ok clf /\
    res_mapM (clf_predict clf) X_test = Ok y_pred /\
    trace st =
      [ Called (read_csv path);
        Called (drop_duplicates df0);
        Called (fit_transform cont);
        Called (SMOTE_fit_resample 42 (iloc_all_but_last df2) y);
        Called (train_test_split X' y' test_size_030 42);
        Called (RandomForestClassifier_fit 100 42 X_train y_train);
        Called (score accuracy_score y_test y_pred);
        Called (score precision_score y_test y_pred);
        Called (score recall_score y_test y_pred);
        Called (score f1_score y_test y_pred) ] /\
    self st = {| self_model := Some (Fitted clf); self_scaler := Some (Fitted sc) |}.
Proof.
  run_to_end; intros Hrun; try discriminate Hrun.
  injection Hrun as <-.
  repeat match goal with r : (_ * _)%type |- _ => destruct r end.
  cbn [fst snd] in *.
  do 15 eexists. repeat (split; [first [eassumption | reflexivity]|]). reflexivity.
Qed.

(** C5. Training calls the libraries in one fixed order: read and
    deduplicate the data, fit the scaler on the continuous columns and
    apply it, oversample the scaled data with SMOTE (seed 42), split what
    SMOTE returned with a test share of 0.30 (seed 42), fit a forest of
    100 trees (seed 42) on the training part of that split, then score it
    on the test part. A run that raises stops somewhere in this order; a
    run that returns made every call, each on the data the previous ones
    produced, and leaves the fitted scaler and the fitted forest in the
    predictor. *)
Theorem train_model_order (path : string) :
  map call_name (trace (run_train_model lib path).2) `prefix_of` call_order /\
  (forall st, run_train_model lib path = (Ok tt, st) ->
     exists df0 df1 cont sc scaled df2 y X' y' X_train X_test y_train y_test clf y_pred,
       lib _ (read_csv path) = Ok df0 /\
       lib _ (drop_duplicates df0) = Ok df1 /\
       select_columns df1 continuous_vars = Ok cont /\
       lib _ (fit_transform cont) = Ok (sc, scaled) /\
       assign_columns df1 continuous_vars scaled = Ok df2 /\
       iloc_last df2 = Ok y /\
       lib _ (SMOTE_fit_resample 42 (iloc_all_but_last df2) y) = Ok (X', y') /\
       lib _ (train_test_split X' y' test_size_030 42)
         = Ok (X_train, X_test, y_train, y_test) /\
       lib _ (RandomForestClassifier_fit 100 42 X_train y_train) = Ok clf /\
       res_mapM (clf_predict clf) X_test = Ok y_pred /\
       trace st =
         [ Called (read_csv path);
           Called (drop_duplicates df0);
           Called (fit_transform cont);
           Called (SMOTE_fit_resample 42 (iloc_all_but_last df2) y);
           Called (train_test_split X' y' test_size_030 42);
           Called (RandomForestClassifier_fit 100 42 X_train y_train);
           Called (score accuracy_score y_test y_pred);
           Called (score precision_score y_test y_pred);
           Called (score recall_score y_test y_pred);
           Called (score f1_score y_test y_pred) ] /\
       self st = {| self_model := Some (Fitted clf); self_scaler := Some (Fitted sc) |}).
Proof.
  split.
  - (* every way the run can end leaves a prefix of the order *)
    run_to_end; cbn; eexists; reflexivity.
  - (* the run that returns: every call answered *)
    intros st. run_to_end; intros Hrun; try discriminate Hrun.
    injection Hrun as <-.
    repeat match goal with r : (_ * _)%type |- _ => destruct r end.
    cbn [fst snd] in *.
    do 15 eexists. repeat (split; [first [eassumption | reflexivity]|]). reflexivity.
Qed.

Lemma select_columns_length (df : DataFrame) (names : list string) (X : matrix) :
  select_columns df names = Ok X -> length X = length (rows df).
Proof.
  unfold select_columns, mbind, res_bind.
  destruct (res_mapM _ names); [|discriminate].
  intros [= <-]. apply length_map.
Qed.

Lemma assign_columns_length (df df' : DataFrame) (names : list string) (V : matrix) :
  assign_columns df names V = Ok df' ->
  length (rows df') = Nat.min (length (rows df)) (length V).
Proof.
  unfold assign_columns, mbind, res_bind.
  destruct (res_mapM _ names); [|discriminate].
  intros [= <-]. simpl. apply length_zip_with.
Qed.

(** C6, as training has it. The scaler is fitted on the continuous columns
    of every row of the deduplicated data, before there is a split; the
    split is taken later, from what oversampling returns for the scaled
    rows. So the held-out rows are not kept from the fit: when
    oversampling returns the scaled rows followed by synthetic ones and
    the split hands out rows of its input, every held-out row is a
    synthetic row or the scaled form of a row that the scaler was fitted
    on. *)
Theorem scaler_fitted_before_split (path : string) (st : tstate) :
  run_train_model lib path = (Ok tt, st) ->
  exists df1 cont sc scaled df2 y X' y' X_train X_test y_train y_test before between after,
    select_columns df1 continuous_vars = Ok cont /\
    length cont = length (rows df1) /\
    lib _ (fit_transform cont) = Ok (sc, scaled) /\
    assign_columns df1 continuous_vars scaled = Ok df2 /\
    lib _ (SMOTE_fit_resample 42 (iloc_all_but_last df2) y) = Ok (X', y') /\
    lib _ (train_test_split X' y' test_size_030 42)
      = Ok (X_train, X_test, y_train, y_test) /\
    trace st = before ++ Called (fit_transform cont)
                 :: between ++ Called (train_test_split X' y' test_size_030 42) :: after /\
    (forall synth,
        X' = iloc_all_but_last df2 ++ synth ->
        (forall row, In row X_test -> In row X') ->
        forall row, In row X_test ->
          In row synth \/
          exists i raw, cont !! i = Some raw /\ iloc_all_but_last df2 !! i = Some row).
Proof.
  intros Hrun.
  destruct (train_model_run_inv path st Hrun)
    as (df0 & df1 & cont & sc & scaled & df2 & y & X' & y' & X_train & X_test & y_train
        & y_test & clf & y_pred & H0 & H1 & Hsel & Hfit & Hassign & Hy & Hsmote & Hsplit
        & Hclf & Hpred & Htrace & Hself).
  exists df1, cont, sc, scaled, df2, y, X', y', X_train, X_test, y_train, y_test.
  exists [Called (read_csv path); Called (drop_duplicates df0)].
  exists [Called (SMOTE_fit_resample 42 (iloc_all_but_last df2) y)].
  eexists.
  split; [exact Hsel|].
  split; [exact (select_columns_length _ _ _ Hsel)|].
  split; [exact Hfit|]. split; [exact Hassign|]. split; [exact Hsmote|].
  split; [exact Hsplit|]. split; [exact Htrace|].
  intros synth HX' Hsub row Hrow.
  specialize (Hsub row Hrow). rewrite HX' in Hsub.
  apply in_app_or in Hsub as [Horig | Hsyn]; [right | left; exact Hsyn].
  apply list_elem_of_In, list_elem_of_lookup in Horig as [i Hi].
  assert (Hlt : i < length cont).
  { apply lookup_lt_Some in Hi. unfold iloc_all_but_last in Hi.
    rewrite length_map, (assign_columns_length _ _ _ _ Hassign) in Hi.
    rewrite (select_columns_length _ _ _ Hsel). lia. }
  destruct (lookup_lt_is_Some_2 cont i Hlt) as [raw Hraw].
  exists i, raw. auto.
Qed.

(** C8, as training has it. [train_model] does not look at the variance of
    any column: whenever the library calls answer (and scikit-learn's
    [fit_transform] answers for a column without variance, to which it
    gives the scale 1), training returns and leaves a fitted scaler and a
    fitted model in the predictor. *)
Theorem train_model_no_variance_check (path : string)
    (df0 df1 df2 : DataFrame) (cont scaled X' X_train X_test : matrix)
    (sc : StandardScaler) (y y' y_train y_test y_pred : list float) (clf : Classifier)
    (acc prec rec f1 : float) :
  lib _ (read_csv path) = Ok df0 ->
  lib _ (drop_duplicates df0) = Ok df1 ->
  select_columns df1 continuous_vars = Ok cont ->
  lib _ (fit_transform cont) = Ok (sc, scaled) ->
  assign_columns df1 continuous_vars scaled = Ok df2 ->
  iloc_last df2 = Ok y ->
  lib _ (SMOTE_fit_resample 42 (iloc_all_but_last df2) y) = Ok (X', y') ->
  lib _ (train_test_split X' y' test_size_030 42) = Ok (X_train, X_test, y_train, y_test) ->
  lib _ (RandomForestClassifier_fit 100 42 X_train y_train) = Ok clf ->
  res_mapM (clf_predict clf) X_test = Ok y_pred ->
  lib _ (score accuracy_score y_test y_pred) = Ok acc ->
  lib _ (score precision_score y_test y_pred) = Ok prec ->
  lib _ (score recall_score y_test y_pred) = Ok rec ->
  lib _ (score f1_score y_test y_pred) = Ok f1 ->
  exists st,
    run_train_model lib path = (Ok tt, st) /\
    self st = {| self_model := Some (Fitted clf); self_scaler := Some (Fitted sc) |}.
Proof.
  intros H0 H1 H2 H3 H4 H5 H6 H7 H8 H9 H10 H11 H12 H13.
  unfold_train.
  rewrite H0. cbn [fst snd app]. rewrite H1. cbn [fst snd app]. rewrite H2.
  rewrite H3. cbn [fst snd app]. rewrite H4, H5. rewrite H6. cbn [fst snd app].
  rewrite H7. cbn [fst snd app]. rewrite H8. cbn [fst snd app]. rewrite H9.
  rewrite H10. cbn [fst snd app]. rewrite H11. cbn [fst snd app].
  rewrite H12. cbn [fst snd app]. rewrite H13.
  eexists. split; reflexivity.
Qed.

End TrainingFacts.

(** ** Training on the example data *)

Lemma example_run_returns :
  run_train_model example_lib "heart_failure.csv"
  = (Ok tt, (run_train_model example_lib "heart_failure.csv").2).
Proof. vm_compute. reflexivity. Qed.

Lemma constant_run_returns :
  run_train_model example_lib "constant_sodium.csv"
  = (Ok tt, (run_train_model example_lib "constant_sodium.csv").2).
Proof. vm_compute. reflexivity. Qed.

Lemma train_model_order_witness :
  map call_name (trace (run_train_model example_lib "heart_failure.csv").2) = call_order.
Proof.
  destruct (proj2 (train_model_order example_lib "heart_failure.csv") _ example_run_returns)
    as (df0 & df1 & cont & sc & scaled & df2 & y & X' & y' & X_train & X_test & y_train
        & y_test & clf & y_pred & _ & _ & _ & _ & _ & _ & _ & _ & _ & _ & Htrace & _).
  rewrite Htrace. reflexivity.
Defined.

Lemma scaler_fitted_before_split_witness :
  exists cont X' y' before between after,
    trace (run_train_model example_lib "heart_failure.csv").2
    = before ++ Called (fit_transform cont)
        :: between ++ Called (train_test_split X' y' test_size_030 42) :: after.
Proof.
  destruct (scaler_fitted_before_split example_lib "heart_failure.csv" _ example_run_returns)
    as (df1 & cont & sc & scaled & df2 & y & X' & y' & X_train & X_test & y_train & y_test
        & before & between & after & _ & _ & _ & _ & _ & _ & Htrace & _).
  exists cont, X', y', before, between, after. exact Htrace.
Defined.

(** C6 as stated fails: of the four example patients, all of whom the
    scaler is fitted on, two are held out. *)
Lemma holdout_rows_were_fitted :
  ~ holdout_unseen_by_scaler example_lib "heart_failure.csv".
Proof.
  intros Hclaim.
  eapply (Hclaim _ _ _ _ _ _ _ _ _ _ example_run_returns).
  - vm_compute. left. reflexivity.
  - vm_compute. reflexivity.
  - vm_compute. left. reflexivity.
  - vm_compute. reflexivity.
  - right. right. right. left. reflexivity.
  - left. reflexivity.
  - vm_compute. reflexivity.
Qed.

Lemma train_model_no_variance_check_witness :
  exists st,
    run_train_model example_lib "constant_sodium.csv" = (Ok tt, st) /\
    self st = {| self_model := Some (Fitted stump);
                 self_scaler := Some (Fitted constant_sodium_scaler) |} /\
    scale_ constant_sodium_scaler !! 5 = Some 1%float.
Proof.
  pose (cont := map (take_cells continuous_indices) (rows constant_sodium_csv)).
  pose (scaled := map (fun row => zip3_with row (mean_ constant_sodium_scaler)
                                    (scale_ constant_sodium_scaler)) cont).
  pose (df2 := {| columns := csv_columns;
                  rows := zip_with (fun row vals => put_cells continuous_indices vals row)
                            (rows constant_sodium_csv) scaled |}).
  pose (X := iloc_all_but_last df2).
  pose (y := [1; 1; 0; 0]%float).
  pose (X_train := select_rows [1; 0] X).
  pose (X_test := select_rows [3; 2] X).
  pose (y_train := [1; 1]%float).
  pose (y_test := [0; 0]%float).
  pose (y_pred := [0; 1]%float).
  destruct (train_model_no_variance_check example_lib "constant_sodium.csv"
              constant_sodium_csv constant_sodium_csv df2 cont scaled X X_train X_test
              constant_sodium_scaler y y y_train y_test y_pred stump
              (score_model accuracy_score y_test y_pred)
              (score_model precision_score y_test y_pred)
              (score_model recall_score y_test y_pred)
              (score_model f1_score y_test y_pred))
    as (st & Hrun & Hself); try (vm_compute; reflexivity).
  exists st. split; [exact Hrun|]. split; [exact Hself|].
  vm_compute. reflexivity.
Defined.

(** C8 as stated fails: every example patient has the same serum sodium,
    the scaler is fitted all the same (scale 1 for that column), and
    training returns with a fitted scaler and a fitted model. *)
Lemma zero_variance_is_not_fatal :
  constant_column (map (take_cells continuous_indices) (rows constant_sodium_csv)) 5 /\
  (run_train_model example_lib "constant_sodium.csv").1 = Ok tt /\
  ~ zero_variance_is_fatal example_lib "constant_sodium.csv".
Proof.
  assert (Hconst : constant_column
                     (map (take_cells continuous_indices) (rows constant_sodium_csv)) 5).
  { split; [discriminate|]. exists 137%float. repeat constructor. }
  split; [exact Hconst|]. split; [vm_compute; reflexivity|].
  intros Hclaim.
  destruct (Hclaim _ _ (map (take_cells continuous_indices) (rows constant_sodium_csv)) 5
              constant_run_returns) as [[e He] _].
  - vm_compute. left. reflexivity.
  - exact Hconst.
  - discriminate He.
Qed.

(** * Further properties of the server *)


Section ServerExtras.

Variable float_of_str : string -> option float.
Variable repr : string -> string.

Local Abbreviation py_float := (py_float float_of_str repr).
Local Abbreviation extract_fields := (extract_features float_of_str repr feature_names).
Local Abbreviation preprocess_patient_data := (preprocess_patient_data float_of_str repr).
Local Abbreviation classify := (classify float_of_str repr).
Local Abbreviation predict := (predict float_of_str repr).
Local Abbreviation batch_entry := (batch_entry float_of_str repr).
Local Abbreviation batch_results := (batch_results float_of_str repr).
Local Abbreviation predict_batch := (predict_batch float_of_str repr).

Lemma classify_raises_of_extract (g : globals) (pd : json) (e : exn) :
  extract_fields pd = Raise e -> classify g pd = Raise e.
Proof.
  intros H. unfold classify.
  rewrite (preprocess_extract_raise float_of_str repr g pd e H). reflexivity.
Qed.

Lemma classify_without_scaler (g : globals) (pd : json) :
  scaler g = None -> exists e, classify g pd = Raise e.
Proof.
  intros Hsc. unfold classify, preprocess_patient_data.
  destruct (extract_fields pd) as [xs|e]; [|eexists; reflexivity].
  rewrite Hsc. eexists. reflexivity.
Qed.

(** A JSON value that is not an object has no fields to extract. *)
Lemma extract_not_object (pd : json) :
  (forall d, pd <> JDict d) -> exists e, extract_fields pd = Raise e.
Proof.
  intros Hnot. destruct pd as [| b | z | f | s | l | d]; try (eexists; reflexivity).
  - unfold feature_names. cbn [extract_features py_in mbind res_bind].
    destruct (is_substring "age" s); eexists; reflexivity.
  - unfold feature_names. cbn [extract_features py_in mbind res_bind].
    destruct (existsb (json_is_str "age") l); eexists; reflexivity.
  - exfalso. apply (Hnot d). reflexivity.
Qed.

(** X2. A JSON value that is not an object is never classified, whatever
    is loaded: as the body of [/predict] it is not answered 200, and as an
    element of a batch it gives a failed entry. *)
Theorem only_objects_are_classified (g : globals) (i : nat) (pd : json) :
  (forall d, pd <> JDict d) ->
  (exists e, classify g pd = Raise e) /\
  status (predict g pd) <> 200%Z /\
  entry_success (batch_entry g i pd) = false.
Proof.
  intros Hnot. destruct (extract_not_object pd Hnot) as [e He].
  pose proof (classify_raises_of_extract g pd e He) as Hc.
  split; [eauto|]. split.
  - unfold predict. rewrite Hc.
    destruct (py_truthy pd); simpl; [destruct (is_ValueError e); simpl; lia | lia].
  - rewrite (entry_success_batch_entry float_of_str repr). rewrite Hc. reflexivity.
Qed.

(** X3. [/predict] answers 200, 400 or 500, and the status tells the
    outcome: 200 exactly when the body is not empty and the classification
    succeeded, which is exactly when the answer has [success] true, and
    then the answer has no [error]; 400 exactly for an empty body or a
    [ValueError]; 500 otherwise. *)
Theorem predict_status_reflects_outcome (g : globals) (pd : json) :
  let r := predict g pd in
  (status r = 200%Z \/ status r = 400%Z \/ status r = 500%Z) /\
  (status r = 200%Z <->
   py_truthy pd = true /\ exists prediction probability,
       classify g pd = Ok (prediction, probability)) /\
  (status r = 200%Z <-> response_field "success" r = Some (JBool true)) /\
  (status r = 200%Z <-> response_field "error" r = None) /\
  (status r = 400%Z <->
   py_truthy pd = false \/ exists e, classify g pd = Raise e /\ is_ValueError e = true) /\
  (status r = 500%Z <->
   py_truthy pd = true /\ exists e, classify g pd = Raise e /\ is_ValueError e = false).
Proof.
  unfold predict, response_field.
  destruct (py_truthy pd); simpl negb; cbv iota.
  - destruct (classify g pd) as [[pr pb]|e] eqn:Hc.
    + simpl. repeat split; intros; try lia; try discriminate; eauto;
        try (destruct H as [H|H]; [discriminate H|]);
        try (destruct H as (e & He & _); discriminate He);
        try (destruct H as (_ & e & He & _); discriminate He).
    + destruct (is_ValueError e) eqn:Hv; simpl.
      * repeat split; intros; try lia; try discriminate; eauto;
          try (destruct H as (_ & pr & pb & Hok); discriminate Hok);
          try (destruct H as (_ & e' & [= <-] & Hv'); congruence).
      * repeat split; intros; try lia; try discriminate; eauto;
          try (destruct H as (_ & pr & pb & Hok); discriminate Hok);
          try (destruct H as [H|(e' & [= <-] & Hv')]; [discriminate H | congruence]).
  - simpl. repeat split; intros; try lia; try discriminate; eauto;
      try (destruct H as (H & _); discriminate H).
Qed.

(** X4. For a record that is not empty, the batch route and the single
    route agree: the batch entry is a success exactly when [/predict]
    answers 200, and then the entry is the answer of [/predict] with the
    position of the record put in front. On a failure the batch entry
    carries the text of the exception as it is, which [/predict] prefixes
    with "Prediction failed: " unless the exception is a [ValueError]. An
    empty record is different: [/predict] answers "No data provided", the
    batch entry names the first missing field. *)
Theorem batch_entry_matches_predict (g : globals) (i : nat) (pd : json) :
  (py_truthy pd = true ->
   (entry_success (batch_entry g i pd) = true <-> status (predict g pd) = 200%Z) /\
   (forall fields,
       status (predict g pd) = 200%Z -> body (predict g pd) = JDict fields ->
       batch_entry g i pd = JDict (("patient_index", JInt (Z.of_nat i)) :: fields)) /\
   (forall e, classify g pd = Raise e ->
       batch_entry g i pd
         = JDict [ ("patient_index", JInt (Z.of_nat i)); ("error", JStr (str_exn e));
                   ("success", JBool false) ] /\
       response_field "error" (predict g pd)
         = Some (JStr (if is_ValueError e then str_exn e
                       else "Prediction failed: " +:+ str_exn e)))) /\
  (predict g (JDict []) = {| body := JDict [("error", JStr "No data provided")];
                             status := 400 |} /\
   batch_entry g i (JDict [])
     = JDict [ ("patient_index", JInt (Z.of_nat i));
               ("error", JStr "Missing required field: age");
               ("success", JBool false) ]).
Proof.
  split.
  - intros Htruthy. unfold predict, batch_entry, response_field. rewrite Htruthy.
    simpl negb. cbv iota.
    destruct (classify g pd) as [[pr pb]|e] eqn:Hc.
    + split; [split; reflexivity|]. split.
      * intros fields _ [= <-]. reflexivity.
      * intros e He. discriminate He.
    + split.
      { split; [discriminate|]. destruct (is_ValueError e); simpl; lia. }
      split.
      * intros fields Hst. exfalso. revert Hst. destruct (is_ValueError e); simpl; lia.
      * intros e' [= <-]. split; [reflexivity|]. destruct (is_ValueError e); reflexivity.
  - split; [reflexivity|]. unfold batch_entry.
    rewrite (classify_raises_of_extract g (JDict [])
               (ValueError "Missing required field: age")); reflexivity.
Qed.

Lemma predict_batch_of_list (g : globals) (d : list (string * json)) (patients : list json) :
  dict_get "patients" d = Some (JList patients) ->
  predict_batch g (JDict d) =
    {| body := JDict
         [ ("results", JList (batch_results g patients));
           ("total", JInt (Z.of_nat (length patients)));
           ("successful",
            JInt (Z.of_nat (length (filter (fun r => entry_success r = true)
                                           (batch_results g patients))))) ];
       status := 200 |}.
Proof.
  intros Hp. unfold predict_batch, py_in, py_getitem, mbind, res_bind.
  destruct d as [|kv d']; [discriminate Hp|].
  change (py_truthy (JDict (kv :: d'))) with true. cbv iota beta. simpl negb.
  rewrite Hp. rewrite bool_decide_eq_true_2 by eauto. reflexivity.
Qed.

Lemma no_success_without_scaler (g : globals) (patients : list json) :
  scaler g = None ->
  filter (fun pd => is_ok (classify g pd) = true) patients = [].
Proof.
  intros Hsc. induction patients as [|pd l IH]; [reflexivity|].
  rewrite filter_cons_False; [exact IH|].
  destruct (classify_without_scaler g pd Hsc) as [e ->]. discriminate.
Qed.

(** X5. The batch route never counts more successes than records, and it
    answers 200 even when nothing is loaded: with no scaler every record
    of the list gets a failed entry at its position and [successful] is
    0. *)
Theorem predict_batch_before_load (g : globals) (d : list (string * json))
    (patients : list json) :
  dict_get "patients" d = Some (JList patients) ->
  (exists successful,
      response_field "successful" (predict_batch g (JDict d))
        = Some (JInt (Z.of_nat successful)) /\
      response_field "total" (predict_batch g (JDict d))
        = Some (JInt (Z.of_nat (length patients))) /\
      successful <= length patients) /\
  (scaler g = None ->
   status (predict_batch g (JDict d)) = 200%Z /\
   response_field "successful" (predict_batch g (JDict d)) = Some (JInt 0) /\
   forall i pd, patients !! i = Some pd ->
     exists e, batch_results g patients !! i
               = Some (JDict [ ("patient_index", JInt (Z.of_nat i));
                               ("error", JStr (str_exn e)); ("success", JBool false) ])).
Proof.
  intros Hp. rewrite (predict_batch_of_list g d patients Hp). unfold response_field.
  cbn [body status dict_get String.eqb Ascii.eqb Bool.eqb].
  assert (Hcount : length (filter (fun r => entry_success r = true) (batch_results g patients))
                   = length (filter (fun pd => is_ok (classify g pd) = true) patients))
    by exact (batch_success_count float_of_str repr g patients (fun i => i)).
  split.
  - eexists. split; [reflexivity|]. split; [reflexivity|].
    rewrite Hcount. apply length_filter.
  - intros Hsc. split; [reflexivity|]. split.
    + rewrite Hcount. do 2 f_equal.
      rewrite (no_success_without_scaler g patients Hsc). reflexivity.
    + intros i pd Hi. destruct (classify_without_scaler g pd Hsc) as [e He].
      exists e. unfold batch_results. rewrite list_lookup_imap, Hi. simpl.
      unfold batch_entry. rewrite He. reflexivity.
Qed.

(** X6. The names that [/required-fields] lists are exactly what
    vectorization requires of a record: a record is vectorized if and only
    if it has, for every listed name, a value that [float] accepts. The
    descriptions of the route are given for these names, in this order. *)
Theorem required_fields_are_required (d : list (string * json)) (listed : list json)
    (descriptions : list (string * json)) :
  response_field "required_fields" get_required_fields = Some (JList listed) ->
  response_field "descriptions" get_required_fields = Some (JDict descriptions) ->
  ((exists xs, extract_fields (JDict d) = Ok xs) <->
   (forall name, In (JStr name) listed ->
      exists v x, dict_get name d = Some v /\ py_float v = Ok x)) /\
  map (fun kv => JStr kv.1) descriptions = listed.
Proof.
  intros [= <-] [= <-]. split; [|reflexivity]. split.
  - intros [xs Hxs] name Hin.
    apply (record_values_extract float_of_str repr) in Hxs.
    change (In (JStr name) (map JStr feature_names)) in Hin.
    apply in_map_iff in Hin as (f & [= ->] & Hf).
    apply list_elem_of_In, list_elem_of_lookup in Hf as [i Hi].
    destruct (Forall2_lookup_l _ _ _ _ _ Hxs Hi) as (x & _ & v & Hv & Hx). eauto.
  - intros Hall.
    destruct (Forall_field_values float_of_str repr d feature_names) as [xs Hxs].
    { apply Forall_forall. intros f Hf. apply Hall.
      change (In (JStr f) (map JStr feature_names)).
      apply in_map. apply list_elem_of_In. exact Hf. }
    exists xs. rewrite (extract_features_dict float_of_str repr).
    apply res_mapM_ok. exact Hxs.
Qed.

End ServerExtras.

(** * Further properties of training *)

Section TrainingExtras.

Variable lib : forall X : Type, libcall X -> res X.

Ltac unfold_train :=
  unfold run_train_model, train_model, call, lift, set_scaler, set_model,
    mbind, M_bind, mret, M_ret; cbn [self trace self_model self_scaler new_predictor app].

Ltac next_call :=
  match goal with
  | |- context [lib ?T ?c] =>
      let r := fresh "r" in
      let H := fresh "Hcall" in
      destruct (lib T c) as [r|?] eqn:H; cbn [fst snd app]
  end.

Ltac next_res :=
  match goal with
  | |- context [match ?c with Ok _ => _ | Raise _ => _ end] =>
      let H := fresh "Hres" in
      destruct c eqn:H; cbn [fst snd app]
  end.

Ltac run_to_end :=
  unfold_train;
  repeat first [ next_call | next_res
               | match goal with |- context [let '(_, _) := ?p in _] => destruct p end ].

(** A run that returns, from any predictor: what it called first, and what
    it left in the predictor. *)
Lemma train_model_ok_inv (path : string) (st0 st : tstate) :
  train_model lib path st0 = (Ok tt, st) ->
  exists df0 df1 cont sc scaled X y clf calls,
    lib _ (read_csv path) = Ok df0 /\
    lib _ (drop_duplicates df0) = Ok df1 /\
    select_columns df1 continuous_vars = Ok cont /\
    lib _ (fit_transform cont) = Ok (sc, scaled) /\
    lib _ (RandomForestClassifier_fit 100 42 X y) = Ok clf /\
    self st = {| self_model := Some (Fitted clf); self_scaler := Some (Fitted sc) |} /\
    trace st = trace st0 ++ Called (read_csv path) :: Called (drop_duplicates df0)
                 :: Called (fit_transform cont) :: calls.
Proof.
  run_to_end; intros Hrun; try discriminate Hrun.
  injection Hrun as <-.
  repeat match goal with r : (_ * _)%type |- _ => destruct r end.
  cbn [fst snd self trace] in *.
  do 9 eexists. repeat (split; [first [eassumption | reflexivity]|]).
  rewrite <- !app_assoc. reflexivity.
Qed.

(** X7. Training that fails after the scaler was fitted leaves the new
    scaler in the predictor next to whatever model was there before: when
    SMOTE raises, [train_model] raises the same exception, the scaler
    attribute is the scaler fitted in this run and the model attribute is
    untouched ([None] for a new predictor, the old model for a trained
    one). No call is made after the failing one. *)
Theorem failed_training_keeps_new_scaler (path : string) (st0 : tstate)
    (df0 df1 df2 : DataFrame) (cont scaled : matrix) (sc : StandardScaler)
    (y : list float) (e : exn) :
  lib _ (read_csv path) = Ok df0 ->
  lib _ (drop_duplicates df0) = Ok df1 ->
  select_columns df1 continuous_vars = Ok cont ->
  lib _ (fit_transform cont) = Ok (sc, scaled) ->
  assign_columns df1 continuous_vars scaled = Ok df2 ->
  iloc_last df2 = Ok y ->
  lib _ (SMOTE_fit_resample 42 (iloc_all_but_last df2) y) = Raise e ->
  train_model lib path st0 =
    (Raise e,
     {| self := {| self_model := self_model (self st0);
                   self_scaler := Some (Fitted sc) |};
        trace := trace st0 ++
                 [ Called (read_csv path); Called (drop_duplicates df0);
                   Called (fit_transform cont);
                   Called (SMOTE_fit_resample 42 (iloc_all_but_last df2) y) ] |}).
Proof.
  intros H0 H1 H2 H3 H4 H5 H6. unfold_train.
  rewrite H0. cbn [fst snd app]. rewrite H1. cbn [fst snd app]. rewrite H2.
  rewrite H3. cbn [fst snd app]. rewrite H4, H5. rewrite H6.
  rewrite <- !app_assoc. reflexivity.
Qed.

(** X8. However a training run of a new predictor ends, its model
    attribute holds a fitted model only if its scaler attribute holds a
    fitted scaler, and both are what the libraries returned in this run:
    the scaler comes from the call of [fit_transform], the model from the
    call that fitted the forest. *)
Theorem train_model_artifacts_come_from_run (path : string) :
  let st := (run_train_model lib path).2 in
  (forall clf, self_model (self st) = Some (Fitted clf) ->
     (exists sc, self_scaler (self st) = Some (Fitted sc)) /\
     exists X y, In (X, y) (forest_inputs (trace st)) /\
                 lib _ (RandomForestClassifier_fit 100 42 X y) = Ok clf) /\
  (forall sc, self_scaler (self st) = Some (Fitted sc) ->
     exists cont scaled, In cont (fit_inputs (trace st)) /\
                         lib _ (fit_transform cont) = Ok (sc, scaled)).
Proof.
  run_to_end; cbn [fst snd self trace self_model self_scaler];
    (split; [intros clf Hm; try discriminate Hm | intros sc Hs; try discriminate Hs]);
    repeat match goal with r : (_ * _)%type |- _ => destruct r end; cbn [fst snd] in *;
    try (injection Hm as <-); try (injection Hs as <-);
    try (split; [eexists; reflexivity|]);
    do 2 eexists; (split; [cbn; auto 10 | eassumption]).
Qed.

End TrainingExtras.

(** ** The further properties on the example data *)

(** A list holding the string "age" passes the membership test and then
    fails at the subscript. *)
Lemma only_objects_are_classified_witness :
  (exists e, classify float_of_str_none repr_plain example_globals (JList [JStr "age"])
             = Raise e) /\
  status (predict float_of_str_none repr_plain example_globals (JList [JStr "age"])) <> 200%Z /\
  entry_success (batch_entry float_of_str_none repr_plain example_globals 0
                   (JList [JStr "age"])) = false.
Proof.
  apply (only_objects_are_classified float_of_str_none repr_plain example_globals 0
           (JList [JStr "age"])).
  intros d H. discriminate H.
Defined.

Lemma predict_batch_before_load_witness :
  let patients := [JDict example_patient; JDict patient_without_sodium] in
  let answer := predict_batch float_of_str_none repr_plain initial_globals
                  (JDict [("patients", JList patients)]) in
  status answer = 200%Z /\
  response_field "successful" answer = Some (JInt 0) /\
  response_field "total" answer = Some (JInt 2).
Proof.
  intros patients answer.
  destruct (predict_batch_before_load float_of_str_none repr_plain initial_globals
              [("patients", JList patients)] patients eq_refl)
    as [(n & _ & Htotal & _) Hnone].
  destruct (Hnone eq_refl) as (Hstatus & Hzero & _).
  split; [exact Hstatus|]. split; [exact Hzero | exact Htotal].
Defined.

Lemma required_fields_are_required_witness :
  (exists v x, dict_get "serum_sodium" example_patient = Some v /\
               py_float float_of_str_none repr_plain v = Ok x) /\
  ~ (exists xs, extract_features float_of_str_none repr_plain feature_names
                  (JDict patient_without_sodium) = Ok xs).
Proof.
  split.
  - destruct (required_fields_are_required float_of_str_none repr_plain example_patient
                (map JStr feature_names)
                (map (fun kv => (kv.1, JStr kv.2)) field_descriptions) eq_refl eq_refl)
      as [[Hforward _] _].
    apply Hforward; [eexists; vm_compute; reflexivity | simpl; auto 15].
  - destruct (required_fields_are_required float_of_str_none repr_plain
                patient_without_sodium (map JStr feature_names)
                (map (fun kv => (kv.1, JStr kv.2)) field_descriptions) eq_refl eq_refl)
      as [[Hforward _] _].
    intros Hxs. destruct (Hforward Hxs "serum_sodium") as (v & x & Hv & _).
    + simpl. auto 15.
    + discriminate Hv.
Defined.

(** A trained predictor, retrained on a file with one survivor: SMOTE
    refuses, the old model stays, the scaler is the one of the new file. *)
Lemma failed_training_keeps_new_scaler_witness :
  train_model one_survivor_lib "one_survivor.csv"
    {| self := {| self_model := Some (Fitted stump);
                  self_scaler := Some (Fitted example_scaler) |};
       trace := [] |}
  = (Raise too_few_neighbours,
     {| self := {| self_model := Some (Fitted stump);
                   self_scaler :=
                     Some (Fitted (StandardScaler_fit
                                     (map (take_cells continuous_indices)
                                          (rows one_survivor_csv)))) |};
        trace :=
          [ Called (read_csv "one_survivor.csv"); Called (drop_duplicates one_survivor_csv);
            Called (fit_transform (map (take_cells continuous_indices)
                                       (rows one_survivor_csv)));
            Called (SMOTE_fit_resample 42
                      (iloc_all_but_last
                         {| columns := csv_columns;
                            rows := zip_with
                                      (fun row vals => put_cells continuous_indices vals row)
                                      (rows one_survivor_csv)
                                      (map (fun row =>
                                              zip3_with row
                                                (mean_ (StandardScaler_fit
                                                          (map (take_cells continuous_indices)
                                                               (rows one_survivor_csv))))
                                                (scale_ (StandardScaler_fit
                                                           (map (take_cells continuous_indices)
                                                                (rows one_survivor_csv)))))
                                           (map (take_cells continuous_indices)
                                                (rows one_survivor_csv))) |})
                      [1; 1; 1; 0]%float) ] |}).
Proof.
  pose (cont := map (take_cells continuous_indices) (rows one_survivor_csv)).
  pose (sc := StandardScaler_fit cont).
  pose (scaled := map (fun row => zip3_with row (mean_ sc) (scale_ sc)) cont).
  pose (df2 := {| columns := csv_columns;
                  rows := zip_with (fun row vals => put_cells continuous_indices vals row)
                            (rows one_survivor_csv) scaled |}).
  apply (failed_training_keeps_new_scaler one_survivor_lib "one_survivor.csv"
           {| self := {| self_model := Some (Fitted stump);
                         self_scaler := Some (Fitted example_scaler) |};
              trace := [] |}
           one_survivor_csv one_survivor_csv df2 cont scaled sc [1; 1; 1; 0]%float
           too_few_neighbours);
    vm_compute; reflexivity.
Defined.

(** * The pickles and the scripts *)

Lemma both_files_exist (d : disk) :
  model_exists d && scaler_exists d
  = match cvd_model_pkl d, cvd_scaler_pkl d with
    | Some _, Some _ => true
    | _, _ => false
    end.
Proof.
  unfold model_exists, scaler_exists.
  destruct (cvd_model_pkl d), (cvd_scaler_pkl d); reflexivity.
Qed.

Lemma load_model_both (d : disk) (g : globals) (m : option (estimator Classifier))
    (s : option (estimator StandardScaler)) :
  cvd_model_pkl d = Some m -> cvd_scaler_pkl d = Some s ->
  load_model d g = (Ok tt, {| model := m; scaler := s |}).
Proof.
  intros Hm Hs. unfold load_model, model_exists, scaler_exists. rewrite Hm, Hs. reflexivity.
Qed.



Section ScriptFacts.

Variable float_of_str : string -> option float.
Variable repr : string -> string.
Variable lib : forall X : Type, libcall X -> res X.
Variable read_excel : string -> res DataFrame.

Local Abbreviation classify := (classify float_of_str repr).
Local Abbreviation predict := (predict float_of_str repr).
Local Abbreviation record_values := (record_values float_of_str repr).
Local Abbreviation main := (main lib).
Local Abbreviation load_or_train := (load_or_train lib).
Local Abbreviation predict_from_excel := (predict_from_excel read_excel).
Local Abbreviation predict_cvd_risk := (predict_cvd_risk lib read_excel).

Lemma classify_without_model (g : globals) (pd : json) :
  model g = None -> exists e, classify g pd = Raise e.
Proof.
  intros Hm. unfold classify.
  destruct (preprocess_patient_data float_of_str repr g pd) as [xs|e];
    [|eexists; reflexivity].
  rewrite Hm. eexists. reflexivity.
Qed.

(** X11. The server's [load_model] checks that the two files exist, not
    what they hold. The pickles of a predictor without a model or without a
    scaler load without an error, and then no body gets a 200 from
    [/predict]; [/health] reports [model_loaded] by the model alone. *)
Theorem unfitted_pickles_load_but_do_not_serve (this : CVDRiskPredictor) (d : disk)
    (g : globals) (pd : json) :
  self_model this = None \/ self_scaler this = None ->
  exists g',
    load_model (Predictor.save_model this d) g = (Ok tt, g') /\
    status (predict g' pd) <> 200%Z /\
    (response_field "model_loaded" (health_check g') = Some (JBool true)
     <-> self_model this <> None).
Proof.
  intros Hnone. eexists. split; [reflexivity|]. split.
  - assert (Hc : exists e, classify {| model := self_model this;
                                       scaler := self_scaler this |} pd = Raise e).
    { destruct Hnone as [Hm|Hs].
      - apply classify_without_model. exact Hm.
      - apply (classify_without_scaler float_of_str repr). exact Hs. }
    destruct Hc as [e He]. unfold predict. cbn [model scaler] in *. rewrite He.
    destruct (py_truthy pd); simpl; [destruct (is_ValueError e); simpl; lia | lia].
  - unfold response_field, health_check. cbn [body dict_get String.eqb Ascii.eqb Bool.eqb model].
    destruct (self_model this) as [m|]; split; intros H; try congruence.
    + rewrite bool_decide_eq_true_2 by eauto. reflexivity.
    + rewrite bool_decide_eq_false_2 in H by (intros [x Hx]; discriminate Hx).
      discriminate H.
Qed.

(** X12. Training, saving and loading compose: after a training run
    that returned, the server that loads the saved pickles holds the forest
    fitted in that run and the scaler fitted in that run, and it
    standardizes a record with the statistics that [fit_transform] computed
    from the training file. *)
Theorem trained_pickles_carry_training_statistics (path : string) (st : tstate)
    (d : disk) (g : globals) :
  run_train_model lib path = (Ok tt, st) ->
  exists clf sc cont scaled,
    In cont (fit_inputs (trace st)) /\
    lib _ (fit_transform cont) = Ok (sc, scaled) /\
    load_model (Predictor.save_model (self st) d) g
      = (Ok tt, {| model := Some (Fitted clf); scaler := Some (Fitted sc) |}) /\
    response_field "model_loaded"
      (health_check {| model := Some (Fitted clf); scaler := Some (Fitted sc) |})
      = Some (JBool true) /\
    forall record xs,
      record_values record xs ->
      length (mean_ sc) = 7 -> length (scale_ sc) = 7 ->
      finite_cells (take_cells continuous_indices xs) ->
      preprocess_patient_data float_of_str repr
        {| model := Some (Fitted clf); scaler := Some (Fitted sc) |} (JDict record)
      = Ok (scale_row sc xs).
Proof.
  intros Hrun. unfold run_train_model in Hrun.
  destruct (train_model_ok_inv lib path _ st Hrun)
    as (df0 & df1 & cont & sc & scaled & X & y & clf & calls
        & _ & _ & _ & Hfit & _ & Hself & Htrace).
  exists clf, sc, cont, scaled. split.
  { rewrite Htrace. cbn. auto. }
  split; [exact Hfit|]. split.
  { rewrite Hself. reflexivity. }
  split; [reflexivity|].
  intros record xs Hxs Hm Hs Hfin.
  apply (preprocess_ready float_of_str repr); [reflexivity | assumption ..].
Qed.


Lemma replace_from_absent (old new s : string) :
  is_substring old s = false -> replace_from old new 0 s = s.
Proof.
  unfold is_substring. induction s as [|c s IH]; [reflexivity|].
  cbn [String.index replace_from].
  destruct (String.prefix old (String c s)); [discriminate|].
  destruct (String.index 0 old s); [discriminate|].
  intros _. rewrite IH by reflexivity. reflexivity.
Qed.

(** ".xlsx" does not overlap itself: it cannot begin inside a text and end
    in a copy of itself put after the text, unless it begins the text. *)
Lemma xlsx_no_overlap (s : string) :
  String.prefix ".xlsx" s = false -> s <> EmptyString ->
  String.prefix ".xlsx" (s +:+ ".xlsx") = false.
Proof.
  intros Hs Hne.
  destruct s as [|c0 [|c1 [|c2 [|c3 [|c4 s]]]]]; [congruence|..];
    cbv [String.append]; cbn [String.prefix] in *;
    repeat match goal with
           | |- context [Ascii.ascii_dec ?a ?b] =>
               destruct (Ascii.ascii_dec a b); [subst|reflexivity]
           end;
    first [discriminate Hs | congruence | destruct s; discriminate Hs].
Qed.

Lemma replace_xlsx_suffix (new stem : string) :
  is_substring ".xlsx" stem = false ->
  replace_from ".xlsx" new 0 (stem +:+ ".xlsx") = stem +:+ new.
Proof.
  unfold is_substring. induction stem as [|c stem IH].
  - intros _. change (replace_from ".xlsx" new 0 ("" +:+ ".xlsx")) with (new +:+ "").
    change ("" +:+ new) with new. induction new as [|a new IHn]; [reflexivity|].
    change (String a new +:+ "") with (String a (new +:+ "")). rewrite IHn. reflexivity.
  - cbn [String.index]. destruct (String.prefix ".xlsx" (String c stem)) eqn:Hp; [discriminate|].
    destruct (String.index 0 ".xlsx" stem); [discriminate|]. intros _.
    change (String c stem +:+ ".xlsx") with (String c (stem +:+ ".xlsx")).
    cbn [replace_from].
    change (String c (stem +:+ ".xlsx")) with (String c stem +:+ ".xlsx").
    rewrite (xlsx_no_overlap (String c stem) Hp) by discriminate.
    rewrite IH by reflexivity. reflexivity.
Qed.

Lemma take_columns_full (xs : list float) :
  length xs = 12 ->
  take_columns continuous_indices xs = Ok (take_cells continuous_indices xs).
Proof. intros H. list_of_length xs H. reflexivity. Qed.

(** What [predict_from_excel] went through when the features were built. *)
Lemma excel_features_inv (this : CVDRiskPredictor) (df : DataFrame) (X : matrix) :
  excel_features this df = Ok X ->
  exists sc cells scaled,
    self_scaler this = Some (Fitted sc) /\
    select_columns df feature_names = Ok cells /\
    cells <> [] /\
    Forall2 (fun r vals =>
               scaler_transform_row sc (take_cells continuous_indices r) = Ok vals)
            cells scaled /\
    X = zip_with (fun row vals => put_cells continuous_indices vals row) cells scaled.
Proof.
  unfold excel_features.
  destruct (negb _); [discriminate|].
  destruct (select_columns df feature_names) as [cells|] eqn:Hsel; [|discriminate].
  unfold mbind at 1, res_bind at 1.
  destruct (self_scaler this) as [[|sc]|]; try discriminate.
  unfold attr, mbind at 1, res_bind at 1.
  change (select_columns {| columns := feature_names; rows := cells |} continuous_vars)
    with (Ok (map (take_cells continuous_indices) cells)).
  unfold mbind at 1, res_bind at 1. unfold transform_matrix.
  destruct cells as [|r cells]; [discriminate|].
  change (map (take_cells continuous_indices) (r :: cells))
    with (take_cells continuous_indices r :: map (take_cells continuous_indices) cells).
  cbv iota.
  destruct (res_mapM (scaler_transform_row sc)
              (take_cells continuous_indices r :: map (take_cells continuous_indices) cells))
    as [scaled|] eqn:Hscaled; [|discriminate].
  unfold mbind at 1, res_bind at 1. unfold assign_columns.
  change (res_mapM (fun n => column_index n (columns {| columns := feature_names;
                                                         rows := r :: cells |}))
            continuous_vars) with (Ok continuous_indices).
  unfold mbind, res_bind. cbn [rows columns]. intros [= <-].
  exists sc, (r :: cells), scaled. repeat split; try discriminate.
  apply res_mapM_ok in Hscaled.
  change (take_cells continuous_indices r :: map (take_cells continuous_indices) cells)
    with (map (take_cells continuous_indices) (r :: cells)) in Hscaled.
  apply Forall2_fmap_l in Hscaled. exact Hscaled.
Qed.

Lemma on_matrix_ok {A} (f : Classifier -> list float -> res A)
    (m : estimator Classifier) (n : nat) (X : matrix) (ys : list A) :
  on_matrix f m n X = Ok ys ->
  exists c, m = Fitted c /\ Forall2 (fun x y => f c x = Ok y) X ys.
Proof.
  unfold on_matrix. destruct m as [|c]; [discriminate|].
  destruct X as [|x X]; [discriminate|].
  intros H. exists c. split; [reflexivity|]. apply res_mapM_ok. exact H.
Qed.

(** What [predict_from_excel] computed when it returns a table. *)
Lemma predict_from_excel_returns_inv (this : CVDRiskPredictor) (path : string)
    (out : option string) (table : prediction_table)
    (written : option (string * prediction_table)) :
  predict_from_excel this path out = (Returns table, written) ->
  exists df X c predictions probas probabilities,
    read_excel path = Ok df /\
    excel_features this df = Ok X /\
    self_model this = Some (Fitted c) /\
    Forall2 (fun x y => clf_predict c x = Ok y) X predictions /\
    Forall2 (fun x row => clf_predict_proba c x = Ok row) X probas /\
    Forall2 (fun row p => row !! 1 = Some p) probas probabilities /\
    rows df <> [] /\
    table = {| sheet := df;
               CVD_RISK := map cvd_risk_of predictions;
               RISK_PROBABILITY := map format_percent_1 probabilities;
               RISK_LEVEL := map risk_level_of_label (map cvd_risk_of predictions) |} /\
    written = match out with
              | Some p => if String.eqb p "" then None else Some (p, table)
              | None => None
              end.
Proof.
  unfold predict_from_excel, mbind, res_bind. cbv zeta.
  destruct (read_excel path) as [df|] eqn:Hread; cbv beta iota; [|discriminate].
  destruct (excel_features this df) as [X|] eqn:HX; cbv beta iota; [|discriminate].
  destruct (self_model this) as [m|]; cbn [attr]; cbv beta iota; [|discriminate].
  destruct (model_predict_matrix m X) as [predictions|] eqn:Hp; cbv beta iota;
    [|discriminate].
  destruct (model_proba_matrix m X) as [probabilities|] eqn:Hq; cbv beta iota;
    [|discriminate].
  cbn [sheet].
  destruct (rows df) as [|r0 rs] eqn:Hrows; [discriminate|]. cbn [length Nat.eqb].
  unfold model_predict_matrix in Hp. apply on_matrix_ok in Hp as (c & -> & Hp).
  unfold model_proba_matrix in Hq.
  destruct (on_matrix clf_predict_proba (Fitted c) (length feature_names) X)
    as [probas|] eqn:Hprobas; [|discriminate].
  unfold mbind, res_bind in Hq.
  apply on_matrix_ok in Hprobas as (c' & [= <-] & Hprobas).
  apply res_mapM_ok in Hq.
  assert (Hsecond : Forall2 (fun row p => row !! 1 = Some p) probas probabilities).
  { clear -Hq. induction Hq as [|row p probas ps Hrow _ IH]; constructor; [|exact IH].
    destruct (row !! 1) as [q|]; [|discriminate]. injection Hrow as <-. reflexivity. }
  intros H. exists df, X, c, predictions, probas, probabilities.
  assert (Hout : table = {| sheet := df;
                            CVD_RISK := map cvd_risk_of predictions;
                            RISK_PROBABILITY := map format_percent_1 probabilities;
                            RISK_LEVEL :=
                              map risk_level_of_label (map cvd_risk_of predictions) |} /\
                 written = match out with
                           | Some p => if String.eqb p "" then None else Some (p, table)
                           | None => None
                           end).
  { destruct out as [p|]; [destruct (String.eqb p "")|]; cbn [negb] in H;
      injection H as <- <-; split; reflexivity. }
  destruct Hout as [Htable Hwritten].
  split; [reflexivity|]. split; [exact HX|]. split; [reflexivity|].
  split; [exact Hp|]. split; [exact Hprobas|]. split; [exact Hsecond|].
  split; [rewrite Hrows; discriminate|]. split; [exact Htable | exact Hwritten].
Qed.


(** [predict_from_excel] raises one of the exceptions of the steps, having
    written nothing, or returns; the division of its summary is never by
    zero, since the scaler has refused a sheet without rows by then. *)
Lemma predict_from_excel_cases (this : CVDRiskPredictor) (path : string)
    (out : option string) :
  (exists e, predict_from_excel this path out = (Raises e, None)) \/
  (exists table written, predict_from_excel this path out = (Returns table, written)).
Proof.
  unfold predict_from_excel, mbind, res_bind. cbv zeta.
  destruct (read_excel path) as [df|] eqn:Hread; cbv beta iota;
    [|left; eexists; reflexivity].
  destruct (excel_features this df) as [X|] eqn:HX; cbv beta iota;
    [|left; eexists; reflexivity].
  destruct (attr (self_model this) "predict") as [m|]; cbv beta iota;
    [|left; eexists; reflexivity].
  destruct (model_predict_matrix m X) as [predictions|]; cbv beta iota;
    [|left; eexists; reflexivity].
  destruct (model_proba_matrix m X) as [probabilities|]; cbv beta iota;
    [|left; eexists; reflexivity].
  cbn [sheet].
  apply excel_features_inv in HX as (sc & cells & scaled & _ & Hsel & Hne & _).
  apply select_columns_length in Hsel.
  destruct (rows df) as [|r0 rs].
  - destruct cells; [congruence | discriminate Hsel].
  - right. cbn [length Nat.eqb].
    destruct out as [p|]; [destruct (negb (String.eqb p ""))|]; do 2 eexists; reflexivity.
Qed.

(** X15. [predict_from_excel] never divides by zero in its summary, and
    it writes a file only when it returns: it either raises an exception of
    one of its steps and writes nothing, or returns a table. The table is
    the sheet as read, which has at least one row, with one label, one
    percentage and one level for every row; a label is YES or NO and the
    level next to it is HIGH RISK for YES and LOW RISK for NO. The table is
    written to the output path if one is given and is not empty. *)
Theorem predict_from_excel_table (this : CVDRiskPredictor) (path : string)
    (out : option string) :
  let run := predict_from_excel this path out in
  (forall msg, run.1 <> RaisesZeroDivisionError msg) /\
  (forall e, run.1 = Raises e -> run.2 = None) /\
  (forall table, run.1 = Returns table ->
     read_excel path = Ok (sheet table) /\
     rows (sheet table) <> [] /\
     length (CVD_RISK table) = length (rows (sheet table)) /\
     length (RISK_PROBABILITY table) = length (rows (sheet table)) /\
     length (RISK_LEVEL table) = length (rows (sheet table)) /\
     Forall2 (fun label level => label = "YES" /\ level = "HIGH RISK" \/
                                 label = "NO" /\ level = "LOW RISK")
             (CVD_RISK table) (RISK_LEVEL table) /\
     run.2 = match out with
             | Some p => if String.eqb p "" then None else Some (p, table)
             | None => None
             end).
Proof.
  intros run. subst run.
  destruct (predict_from_excel_cases this path out) as [[e Hrun]|(table & written & Hrun)];
    rewrite Hrun; cbn [fst snd].
  - split; [discriminate|]. split; [reflexivity|]. discriminate.
  - split; [discriminate|]. split; [discriminate|]. intros table' [= <-].
    apply predict_from_excel_returns_inv in Hrun
      as (df & X & c & predictions & probas & probabilities
          & Hread & HX & _ & Hp & Hq & Hsecond & Hrows & -> & ->).
    cbn [sheet CVD_RISK RISK_PROBABILITY RISK_LEVEL].
    apply excel_features_inv in HX as (sc & cells & scaled & _ & Hsel & _ & Hscaled & ->).
    apply select_columns_length in Hsel.
    assert (HX : length (zip_with (fun row vals => put_cells continuous_indices vals row)
                           cells scaled) = length (rows df)).
    { rewrite length_zip_with, <- (Forall2_length _ _ _ Hscaled), Hsel. lia. }
    apply Forall2_length in Hp, Hq, Hsecond.
    split; [exact Hread|]. split; [exact Hrows|].
    rewrite !length_map. split; [lia|]. split; [lia|]. split; [lia|]. split; [|reflexivity].
    clear. induction predictions as [|y ys IH]; constructor; [|exact IH].
    unfold risk_level_of_label, cvd_risk_of. destruct (PrimFloat.eqb y 1); auto.
Qed.

(** After [load_or_train] returned, the predictor and the disk agree. *)
Lemma load_or_train_ok_inv (d d' : disk) (st : tstate) :
  load_or_train d = (Ok tt, st, d') ->
  cvd_model_pkl d' = Some (self_model (self st)) /\
  cvd_scaler_pkl d' = Some (self_scaler (self st)) /\
  (forall m s, cvd_model_pkl d = Some m -> cvd_scaler_pkl d = Some s ->
     d' = d /\ self st = {| self_model := m; self_scaler := s |} /\ trace st = []) /\
  (cvd_model_pkl d = None \/ cvd_scaler_pkl d = None ->
     d' = Predictor.save_model (self st) d /\
     exists df0 df1 cont sc scaled X y clf calls,
       lib _ (read_csv "heart_failure.csv") = Ok df0 /\
       lib _ (drop_duplicates df0) = Ok df1 /\
       select_columns df1 continuous_vars = Ok cont /\
       lib _ (fit_transform cont) = Ok (sc, scaled) /\
       lib _ (RandomForestClassifier_fit 100 42 X y) = Ok clf /\
       self st = {| self_model := Some (Fitted clf); self_scaler := Some (Fitted sc) |} /\
       trace st = Called (read_csv "heart_failure.csv") :: Called (drop_duplicates df0)
                    :: Called (fit_transform cont) :: calls).
Proof.
  unfold load_or_train, Predictor.load_model.
  destruct (cvd_model_pkl d) as [m|] eqn:Hm, (cvd_scaler_pkl d) as [s|] eqn:Hs;
    cbn [self new_predictor trace self_model self_scaler is_FileNotFoundError no_such_file].
  1: { intros [= <- <-]. cbn [self self_model self_scaler trace]. rewrite Hm, Hs.
       split; [reflexivity|]. split; [reflexivity|]. split.
       - intros m' s' [= <-] [= <-]. auto.
       - intros [H|H]; discriminate H. }
  all: match goal with
       | |- context [train_model lib ?p ?s0] =>
           destruct (train_model lib p s0) as [[[]|e0] st0] eqn:Ht
       end;
    intros H; try discriminate H; injection H as <- <-;
    (split; [reflexivity|]); (split; [reflexivity|]);
    (split; [intros m' s' Hm' Hs'; try discriminate Hm'; discriminate Hs'|]);
    intros _; (split; [reflexivity|]);
    destruct (train_model_ok_inv lib _ _ _ Ht)
      as (df0 & df1 & cont & sc & scaled & X & y & clf & calls
          & H0 & H1 & H2 & H3 & H4 & Hself & Htrace);
    exists df0, df1, cont, sc, scaled, X, y, clf, calls; auto 10.
Qed.

(** X16. The default output path of [predict_cvd_risk]. For an input
    path that ends in ".xlsx" and has no other ".xlsx" in it, the results
    go to the path with "_results" put before the extension. For an input
    path with no ".xlsx" in it the output path is the input path itself:
    when [predict_cvd_risk] returns, it has written the results over the
    sheet it read. An output path that is given is used as it is. *)
Theorem default_output_path (d : disk) (input_excel : string) :
  (forall stem, is_substring ".xlsx" stem = false ->
     output_path_of (stem +:+ ".xlsx") None = stem +:+ "_results.xlsx") /\
  (is_substring ".xlsx" input_excel = false ->
     output_path_of input_excel None = input_excel /\
     forall table st d' written,
       predict_cvd_risk d input_excel None = (Returns table, st, d', written) ->
       input_excel <> "" ->
       written = Some (input_excel, table)) /\
  (forall path table st d' written,
     predict_cvd_risk d input_excel (Some path) = (Returns table, st, d', written) ->
     written = if String.eqb path "" then None else Some (path, table)).
Proof.
  assert (Hwritten : forall out table st d' written,
             predict_cvd_risk d input_excel out = (Returns table, st, d', written) ->
             written = if String.eqb (output_path_of input_excel out) ""
                       then None else Some (output_path_of input_excel out, table)).
  { intros out table st d' written. unfold predict_cvd_risk.
    destruct (load_or_train d) as [[[[]|e] st0] d0]; [|discriminate].
    destruct (predict_from_excel (self st0) input_excel
                (Some (output_path_of input_excel out))) as [r w] eqn:Hrun.
    intros [= -> <- <- <-].
    apply predict_from_excel_returns_inv in Hrun
      as (df & X & c & predictions & probas & probabilities
          & _ & _ & _ & _ & _ & _ & _ & _ & Hw).
    exact Hw. }
  split; [|split].
  - intros stem Hstem. unfold output_path_of, str_replace.
    apply replace_xlsx_suffix. exact Hstem.
  - intros Habsent.
    assert (Hpath : output_path_of input_excel None = input_excel).
    { unfold output_path_of, str_replace. apply replace_from_absent. exact Habsent. }
    split; [exact Hpath|].
    intros table st d' written Hrun Hne.
    rewrite (Hwritten None table st d' written Hrun), Hpath.
    destruct (String.eqb_spec input_excel ""); [contradiction | reflexivity].
  - intros path table st d' written Hrun.
    exact (Hwritten (Some path) table st d' written Hrun).
Qed.

(** X17. [predict_cvd_risk] predicts with a model and a scaler that
    belong together and that are the ones on disk afterwards. With both
    pickles there it uses them as they are, calls no library of training
    and writes no pickle. With either missing it trains on
    "heart_failure.csv" and saves: a model file left without its scaler
    file is not used, the model and the scaler it predicts with are both
    fitted in this run. The table it returns is the one
    [predict_from_excel] makes with that predictor. *)
Theorem predict_cvd_risk_uses_a_matched_pair (d d' : disk) (input_excel : string)
    (output_excel : option string) (table : prediction_table) (st : tstate)
    (written : option (string * prediction_table)) :
  predict_cvd_risk d input_excel output_excel = (Returns table, st, d', written) ->
  predict_from_excel (self st) input_excel
    (Some (output_path_of input_excel output_excel)) = (Returns table, written) /\
  cvd_model_pkl d' = Some (self_model (self st)) /\
  cvd_scaler_pkl d' = Some (self_scaler (self st)) /\
  (forall m s, cvd_model_pkl d = Some m -> cvd_scaler_pkl d = Some s ->
     d' = d /\ self st = {| self_model := m; self_scaler := s |} /\ trace st = []) /\
  (cvd_model_pkl d = None \/ cvd_scaler_pkl d = None ->
     d' = Predictor.save_model (self st) d /\
     exists df0 df1 cont sc scaled X y clf calls,
       lib _ (read_csv "heart_failure.csv") = Ok df0 /\
       lib _ (drop_duplicates df0) = Ok df1 /\
       select_columns df1 continuous_vars = Ok cont /\
       lib _ (fit_transform cont) = Ok (sc, scaled) /\
       lib _ (RandomForestClassifier_fit 100 42 X y) = Ok clf /\
       self st = {| self_model := Some (Fitted clf); self_scaler := Some (Fitted sc) |} /\
       trace st = Called (read_csv "heart_failure.csv") :: Called (drop_duplicates df0)
                    :: Called (fit_transform cont) :: calls).
Proof.
  unfold predict_cvd_risk.
  destruct (load_or_train d) as [[[[]|e] st0] d0] eqn:Hload; [|discriminate].
  destruct (predict_from_excel (self st0) input_excel
              (Some (output_path_of input_excel output_excel))) as [r w] eqn:Hrun.
  intros [= -> <- <- <-]. split; [exact Hrun|].
  exact (load_or_train_ok_inv d d0 st0 Hload).
Qed.

Lemma column_index_of_has (name : string) (cols : list string) :
  existsb (String.eqb name) cols = true -> exists i, column_index name cols = Ok i.
Proof.
  induction cols as [|c cols IH]; simpl; [discriminate|].
  destruct (String.eqb name c); [eauto|]. simpl. intros H.
  destruct (IH H) as [i ->]. eauto.
Qed.

(** With no column missing, the feature columns are selected. *)
Lemma select_columns_of_no_missing (df : DataFrame) (names : list string) :
  filter (fun col => has_column df col = false) names = [] ->
  exists idx, res_mapM (fun n => column_index n (columns df)) names = Ok idx /\
              select_columns df names = Ok (map (take_cells idx) (rows df)).
Proof.
  intros Hnone.
  assert (Hidx : exists idx, res_mapM (fun n => column_index n (columns df)) names = Ok idx).
  { induction names as [|n names IH]; [eexists; reflexivity|].
    destruct (has_column df n) eqn:Hn.
    - rewrite filter_cons_False in Hnone by (rewrite Hn; discriminate).
      destruct (IH Hnone) as [idx Hidx].
      destruct (column_index_of_has n (columns df) Hn) as [i Hi].
      exists (i :: idx). simpl. unfold mbind, res_bind in *. rewrite Hi, Hidx. reflexivity.
    - rewrite filter_cons_True in Hnone by exact Hn. discriminate Hnone. }
  destruct Hidx as [idx Hidx]. exists idx. split; [exact Hidx|].
  unfold select_columns, mbind, res_bind. rewrite Hidx. reflexivity.
Qed.

(** X18. Which exception a bad sheet or an unloaded predictor gives, in
    the order of the checks of [predict_from_excel]; nothing is written in
    any of these cases. A sheet that cannot be read gives the exception of
    the reader. A sheet that lacks columns of the schema gives a
    [ValueError] that names all of them, in schema order, also when nothing
    is loaded. A complete sheet gives the [AttributeError] of the missing
    [transform] when no scaler is loaded, and with a fitted scaler the
    [ValueError] of the scaler when it has no rows. *)
Theorem predict_from_excel_failures (this : CVDRiskPredictor) (path : string)
    (out : option string) :
  (forall e, read_excel path = Raise e ->
     predict_from_excel this path out = (Raises e, None)) /\
  (forall df, read_excel path = Ok df ->
     let missing := filter (fun col => has_column df col = false) feature_names in
     (missing <> [] ->
        predict_from_excel this path out
        = (Raises (ValueError ("Missing required columns: " +:+ py_list_repr missing)),
           None)) /\
     (missing = [] -> self_scaler this = None ->
        predict_from_excel this path out
        = (Raises (AttributeError "'NoneType' object has no attribute 'transform'"),
           None)) /\
     (forall sc, missing = [] -> self_scaler this = Some (Fitted sc) -> rows df = [] ->
        predict_from_excel this path out
        = (Raises (ValueError "Found array with 0 sample(s) (shape=(0, 7)) while a minimum of 1 is required by StandardScaler."),
           None))).
Proof.
  split.
  - intros e Hread. unfold predict_from_excel. rewrite Hread. reflexivity.
  - intros df Hread missing. subst missing.
    unfold predict_from_excel, mbind, res_bind. rewrite Hread. cbv beta iota zeta.
    unfold excel_features, mbind, res_bind.
    split; [|split].
    + intros Hmissing. rewrite bool_decide_eq_false_2 by exact Hmissing. reflexivity.
    + intros Hnone Hscaler. rewrite Hnone.
      destruct (select_columns_of_no_missing df feature_names Hnone) as (idx & _ & ->).
      rewrite Hscaler. reflexivity.
    + intros sc Hnone Hscaler Hrows. rewrite Hnone.
      destruct (select_columns_of_no_missing df feature_names Hnone) as (idx & _ & ->).
      rewrite Hscaler, Hrows. reflexivity.
Qed.

End ScriptFacts.

(** ** The pickles and the scripts on the example data *)

Lemma unfitted_pickles_load_but_do_not_serve_witness :
  exists g',
    load_model (Predictor.save_model new_predictor no_files) initial_globals = (Ok tt, g') /\
    status (predict float_of_str_none repr_plain g' (JDict example_patient)) <> 200%Z.
Proof.
  destruct (unfitted_pickles_load_but_do_not_serve float_of_str_none repr_plain
              new_predictor no_files initial_globals (JDict example_patient)
              (or_introl eq_refl)) as (g' & Hload & Hstatus & _).
  exists g'. split; [exact Hload | exact Hstatus].
Defined.

Lemma trained_pickles_carry_training_statistics_witness :
  exists clf sc,
    load_model
      (Predictor.save_model (self (run_train_model example_lib "heart_failure.csv").2)
         no_files)
      initial_globals
    = (Ok tt, {| model := Some (Fitted clf); scaler := Some (Fitted sc) |}).
Proof.
  destruct (trained_pickles_carry_training_statistics float_of_str_none repr_plain
              example_lib "heart_failure.csv" _ no_files initial_globals
              example_run_returns)
    as (clf & sc & cont & scaled & _ & _ & Hload & _).
  exists clf, sc. exact Hload.
Defined.

Lemma example_table_computed :
  predict_from_excel example_excel example_predictor "patients.xlsx" None
  = (Returns example_table, None).
Proof. vm_compute. reflexivity. Qed.


(** With no pickle on disk: training on the example file, then the sheet. *)
Lemma predict_cvd_risk_uses_a_matched_pair_witness :
  let st := (run_train_model example_lib "heart_failure.csv").2 in
  let d' := Predictor.save_model (self st) no_files in
  predict_from_excel example_excel (self st) "patients.xlsx"
    (Some (output_path_of "patients.xlsx" None))
  = (Returns example_table, Some ("patients_results.xlsx", example_table)) /\
  cvd_model_pkl d' = Some (self_model (self st)) /\
  cvd_scaler_pkl d' = Some (self_scaler (self st)).
Proof.
  intros st d'.
  destruct (predict_cvd_risk_uses_a_matched_pair example_lib example_excel no_files d'
              "patients.xlsx" None example_table st
              (Some ("patients_results.xlsx", example_table)))
    as (Hrun & Hmodel & Hscaler & _).
  - vm_compute. reflexivity.
  - split; [exact Hrun|]. split; [exact Hmodel | exact Hscaler].
Defined.


Lemma default_output_path_witness :
  output_path_of "ward 3/patients.xlsx" None = "ward 3/patients_results.xlsx" /\
  output_path_of "patients.XLSX" None = "patients.XLSX".
Proof.
  split.
  - apply (proj1 (default_output_path example_lib example_excel no_files "patients.XLSX")
             "ward 3/patients").
    reflexivity.
  - apply (proj1 (proj2 (default_output_path example_lib example_excel no_files
                           "patients.XLSX"))).
    reflexivity.
Defined.

(** * The bodies of [/predict-batch] *)

Section BatchBodies.

Variable float_of_str : string -> option float.
Variable repr : string -> string.

Local Abbreviation classify := (classify float_of_str repr).
Local Abbreviation batch_results := (batch_results float_of_str repr).
Local Abbreviation predict_batch := (predict_batch float_of_str repr).

Lemma py_iter_not_list (patients : json) (items : list json) :
  py_iter patients = Ok items -> (forall l, patients <> JList l) ->
  Forall (fun pd => forall d, pd <> JDict d) items.
Proof.
  intros Hiter Hnot. destruct patients as [| b | z | f | s | l | d]; try discriminate Hiter.
  - injection Hiter as <-. clear Hnot.
    induction s as [|c s IH]; cbn [chars]; constructor; [discriminate | exact IH].
  - exfalso. apply (Hnot l). reflexivity.
  - injection Hiter as <-. clear Hnot.
    induction d as [|kv d IH]; cbn [map]; constructor; [discriminate | exact IH].
Qed.

Lemma no_success_of_not_objects (g : globals) (items : list json) :
  Forall (fun pd => forall d, pd <> JDict d) items ->
  filter (fun pd => is_ok (classify g pd) = true) items = [].
Proof.
  induction 1 as [|pd items Hpd _ IH]; [reflexivity|].
  rewrite filter_cons_False; [exact IH|].
  destruct (extract_not_object float_of_str repr pd Hpd) as [e He].
  rewrite (classify_raises_of_extract float_of_str repr g pd e He). discriminate.
Qed.

(** X19. Which bodies [/predict-batch] answers how. The status is 200,
    400 or 500, and it is 200 exactly for an object whose "patients" can be
    iterated over. An object without "patients", the empty object
    included, gets the 400 "No patient data provided". For an object with
    "patients" [total] is the number of items iterated over; when
    "patients" is not a list but text or an object, the items are its
    characters or its keys, and the answer is still 200, with no
    success. *)
Theorem predict_batch_bodies (g : globals) (data : json) :
  let r := predict_batch g data in
  (status r = 200%Z \/ status r = 400%Z \/ status r = 500%Z) /\
  (status r = 200%Z <->
   exists d patients items,
     data = JDict d /\ dict_get "patients" d = Some patients /\
     py_iter patients = Ok items) /\
  (forall d, data = JDict d -> dict_get "patients" d = None ->
     r = {| body := JDict [("error", JStr "No patient data provided")]; status := 400 |}) /\
  (forall d patients items,
     data = JDict d -> dict_get "patients" d = Some patients ->
     py_iter patients = Ok items ->
     response_field "total" r = Some (JInt (Z.of_nat (length items))) /\
     ((forall l, patients <> JList l) ->
      response_field "successful" r = Some (JInt 0))).
Proof.
  intros r. subst r.
  destruct data as [| b | z | f | s | l | d].
  1-6: unfold predict_batch, py_in, py_getitem, mbind, res_bind;
    repeat match goal with
           | |- context [if ?c then _ else _] => destruct c
           end; cbn [status error_500];
    (split; [auto|]);
    (split; [split; [intros H; discriminate H
                    |intros (d' & p' & i' & H & _); discriminate H]|]);
    (split; [intros d' H; discriminate H | intros d' p' i' H; discriminate H]).
  destruct (dict_get "patients" d) as [patients|] eqn:Hp.
  - assert (Hne : d <> []) by (intros ->; discriminate Hp).
    unfold predict_batch, py_in, py_getitem, mbind, res_bind. rewrite Hp.
    destruct d as [|kv d']; [congruence|].
    change (py_truthy (JDict (kv :: d'))) with true. cbn [negb]. cbv iota.
    rewrite bool_decide_eq_true_2 by eauto. cbn [negb]. cbv iota.
    destruct (py_iter patients) as [items|e] eqn:Hiter; cbn [status error_500].
    + split; [auto|]. split; [split; [eauto 10 | reflexivity]|].
      split; [intros d0 [= <-] H; rewrite Hp in H; discriminate H|].
      intros d0 p0 i0 [= <-] Hp0 Hi0. rewrite Hp in Hp0. injection Hp0 as <-.
      rewrite Hiter in Hi0. injection Hi0 as <-. unfold response_field.
      cbn [body dict_get String.eqb Ascii.eqb Bool.eqb]. split; [reflexivity|].
      intros Hnot. do 2 f_equal.
      assert (Hcount : length (filter (fun r => entry_success r = true)
                                      (batch_results g items))
                       = length (filter (fun pd => is_ok (classify g pd) = true) items))
        by exact (batch_success_count float_of_str repr g items (fun i => i)).
      rewrite Hcount.
      rewrite (no_success_of_not_objects g items (py_iter_not_list _ _ Hiter Hnot)).
      reflexivity.
    + split; [auto|].
      split; [split; [intros H; discriminate H
                     |intros (d0 & p0 & i0 & [= <-] & Hp0 & H); congruence]|].
      split; [intros d0 [= <-] H; congruence|].
      intros d0 p0 i0 [= <-] Hp0 H. congruence.
  - assert (Hno : predict_batch g (JDict d)
                  = {| body := JDict [("error", JStr "No patient data provided")];
                       status := 400 |}).
    { unfold predict_batch, py_in, mbind, res_bind. rewrite Hp.
      destruct d as [|kv d']; [reflexivity|].
      change (py_truthy (JDict (kv :: d'))) with true. cbn [negb]. cbv iota.
      rewrite bool_decide_eq_false_2 by (intros [x Hx]; discriminate Hx). reflexivity. }
    rewrite Hno. cbn [status].
    split; [auto|].
    split; [split; [intros H; discriminate H
                   |intros (d0 & p0 & i0 & [= <-] & H & _); congruence]|].
    split; [reflexivity|]. intros d0 p0 i0 [= <-] H. congruence.
Qed.

End BatchBodies.
